(** * ttkbootstrap.window: the [Window] and [Toplevel] wrappers

    A shallow embedding of [src/ttkbootstrap/window.py].  Both classes are
    straight-line code over the Tk window manager: every method is a
    sequence of requests to the toolkit, guarded by tests on the
    constructor options.

    A method is a computation that reads the toolkit, threads a world
    and returns or raises.  The world keeps the requests in the order
    the code issues them, next to what the toolkit holds as a result:
    the window manager's record of the window, the class bindings and
    the options of the widgets.  The toolkit itself is not part of the
    package; its answers (windowing system, screen and window
    dimensions) and its refusals are parameters of every run.  Setting
    an option of the window is taken to succeed; the icon requests and
    the widget operations of the cursor callback can fail. *)

From Stdlib Require Import ZArith Ascii String Decimal DecimalString DecimalZ
  DecimalPos.
From stdpp Require Import base option list gmap strings.

Local Open Scope Z_scope.

(** ** Python values and exceptions *)

Module Py.

(** The values the constructor options range over.  A float is kept as
    the dyadic number [m * 2^e]; images and widgets are known by their
    Tcl names. *)
Inductive value :=
| None_
| Bool (b : bool)
| Int (z : Z)
| Float (m e : Z)
| Str (s : string)
| PhotoImage (name : string)
| Widget (path : string).

(** [bool(v)]: what [if v:] and [v or w] test. *)
Definition truthy (v : value) : bool :=
  match v with
  | None_ => false
  | Bool b => b
  | Int z => negb (z =? 0)
  | Float m _ => negb (m =? 0)
  | Str s => negb (String.eqb s EmptyString)
  | PhotoImage _ => true
  | Widget _ => true
  end.

(** [str(z)] for an [int], which is also what [f"{z}"] renders. *)
Definition str_int (z : Z) : string :=
  NilZero.string_of_int (Z.to_int z).

(** [str(v)] for what a widget option holds: a string, or [None]. *)
Definition str (v : option string) : string :=
  match v with
  | None => "None"
  | Some s => s
  end.

Inductive exn :=
| TclError
| KeyError
| RuntimeError
| Exception (name : string).

Inductive outcome (A : Type) :=
| Return (a : A)
| Raise (e : exn).
Arguments Return {A} a.
Arguments Raise {A} e.

Definition is_TclError (e : exn) : bool :=
  match e with TclError => true | _ => false end.

End Py.

Import Py.

(** ** The toolkit *)

Module Tk.

(** The callbacks this module hands to [bind_class]. *)
Inductive callback :=
| Window_disabled_state_cursor.

(** What the code asks of the toolkit, one constructor per call site
    kind.  [enable_high_dpi_awareness] and [Style] belong to other
    modules of the package and are kept as opaque requests. *)
Inductive request :=
| EnableHighDpiAwareness (root : bool) (scaling : option value)
| TkInit
| ToplevelInit
| WindowingSystem
| DefaultIcon
| Iconphoto (default : bool) (image : value)
| Title (s : string)
| Geometry (s : string)
| Minsize (width height : Z)
| Maxsize (width height : Z)
| Resizable (width height : bool)
| Transient (master : value)
| Overrideredirect (flag : Z)
| WaitVisibility
| Attributes (name : string) (v : value)
| BindClass (className sequence : string) (func : callback) (add : string)
| StyleInit (themename : string)
| UpdateIdletasks
| WinfoHeight
| WinfoWidth
| WinfoScreenheight
| WinfoScreenwidth
| Nametowidget (name : string)
| Cget (widget key : string)
| SetItem (widget key : string) (v : option string).

(** *** Geometry strings

    [wm geometry] reads [=?(WxH)?([+-]X[+-]Y)?].  A leading [+] or [-]
    says from which edge of the screen the offset counts; the offset
    itself may be negative. *)

Definition is_digit (c : ascii) : bool :=
  (48 <=? nat_of_ascii c)%nat && (nat_of_ascii c <=? 57)%nat.

Fixpoint span_digits (s : string) : string * string :=
  match s with
  | String c s' =>
      if is_digit c
      then let '(d, r) := span_digits s' in (String c d, r)
      else (EmptyString, s)
  | EmptyString => (EmptyString, EmptyString)
  end.

Definition strtoul (s : string) : option (Z * string) :=
  let '(d, r) := span_digits s in
  u ← NilZero.uint_of_string d; Some (Z.of_uint u, r).

Definition strtol (s : string) : option (Z * string) :=
  match s with
  | String c s' =>
      if Ascii.eqb c "-" then '(n, r) ← strtoul s'; Some (- n, r)
      else strtoul s
  | EmptyString => None
  end.

(** An offset and whether it counts from the far (right or bottom) edge. *)
Definition offset : Type := bool * Z.

Definition parse_edge (s : string) : option (bool * string) :=
  match s with
  | String c r =>
      if Ascii.eqb c "+" then Some (false, r)
      else if Ascii.eqb c "-" then Some (true, r)
      else None
  | EmptyString => None
  end.

Definition parse_position (s : string) : option (option (offset * offset)) :=
  match s with
  | EmptyString => Some None
  | _ =>
      '(fx, r) ← parse_edge s;
      '(x, r) ← strtol r;
      '(fy, r) ← parse_edge r;
      '(y, r) ← strtol r;
      match r with
      | EmptyString => Some (Some ((fx, x), (fy, y)))
      | _ => None
      end
  end.

Definition parse_size (s : string) : option (option (Z * Z) * string) :=
  match s with
  | String c _ =>
      if is_digit c then
        '(w, r) ← strtoul s;
        match r with
        | String c r =>
            if Ascii.eqb c "x"
            then '(h, r) ← strtoul r; Some (Some (w, h), r)
            else None
        | EmptyString => None
        end
      else Some (None, s)
  | EmptyString => Some (None, s)
  end.

Definition parse_geometry (s : string)
  : option (option (Z * Z) * option (offset * offset)) :=
  let s :=
    match s with
    | String c r => if Ascii.eqb c "=" then r else s
    | EmptyString => s
    end in
  '(sz, r) ← parse_size s;
  pos ← parse_position r;
  Some (sz, pos).

(** *** What the window manager records for the window *)

Record wm_state := {
  wm_title : string;
  wm_iconphoto : option (bool * value);
  wm_size : option (Z * Z);
  wm_position : option (offset * offset);
  wm_minsize : option (Z * Z);
  wm_maxsize : option (Z * Z);
  wm_resizable : option (bool * bool);
  wm_transient : option value;
  wm_overrideredirect : option Z;
  wm_attributes : gmap string value;
  wm_visible : bool
}.

(** One setter per field. *)
Definition wm_set_title (x : string) (c : wm_state) : wm_state :=
  {| wm_title := x; wm_iconphoto := wm_iconphoto c; wm_size := wm_size c;
     wm_position := wm_position c; wm_minsize := wm_minsize c;
     wm_maxsize := wm_maxsize c; wm_resizable := wm_resizable c;
     wm_transient := wm_transient c;
     wm_overrideredirect := wm_overrideredirect c;
     wm_attributes := wm_attributes c; wm_visible := wm_visible c |}.

Definition wm_set_iconphoto (x : option (bool * value)) (c : wm_state)
  : wm_state :=
  {| wm_title := wm_title c; wm_iconphoto := x; wm_size := wm_size c;
     wm_position := wm_position c; wm_minsize := wm_minsize c;
     wm_maxsize := wm_maxsize c; wm_resizable := wm_resizable c;
     wm_transient := wm_transient c;
     wm_overrideredirect := wm_overrideredirect c;
     wm_attributes := wm_attributes c; wm_visible := wm_visible c |}.

Definition wm_set_size (x : option (Z * Z)) (c : wm_state) : wm_state :=
  {| wm_title := wm_title c; wm_iconphoto := wm_iconphoto c; wm_size := x;
     wm_position := wm_position c; wm_minsize := wm_minsize c;
     wm_maxsize := wm_maxsize c; wm_resizable := wm_resizable c;
     wm_transient := wm_transient c;
     wm_overrideredirect := wm_overrideredirect c;
     wm_attributes := wm_attributes c; wm_visible := wm_visible c |}.

Definition wm_set_position (x : option (offset * offset)) (c : wm_state)
  : wm_state :=
  {| wm_title := wm_title c; wm_iconphoto := wm_iconphoto c;
     wm_size := wm_size c; wm_position := x; wm_minsize := wm_minsize c;
     wm_maxsize := wm_maxsize c; wm_resizable := wm_resizable c;
     wm_transient := wm_transient c;
     wm_overrideredirect := wm_overrideredirect c;
     wm_attributes := wm_attributes c; wm_visible := wm_visible c |}.

Definition wm_set_minsize (x : option (Z * Z)) (c : wm_state) : wm_state :=
  {| wm_title := wm_title c; wm_iconphoto := wm_iconphoto c;
     wm_size := wm_size c; wm_position := wm_position c; wm_minsize := x;
     wm_maxsize := wm_maxsize c; wm_resizable := wm_resizable c;
     wm_transient := wm_transient c;
     wm_overrideredirect := wm_overrideredirect c;
     wm_attributes := wm_attributes c; wm_visible := wm_visible c |}.

Definition wm_set_maxsize (x : option (Z * Z)) (c : wm_state) : wm_state :=
  {| wm_title := wm_title c; wm_iconphoto := wm_iconphoto c;
     wm_size := wm_size c; wm_position := wm_position c;
     wm_minsize := wm_minsize c; wm_maxsize := x;
     wm_resizable := wm_resizable c; wm_transient := wm_transient c;
     wm_overrideredirect := wm_overrideredirect c;
     wm_attributes := wm_attributes c; wm_visible := wm_visible c |}.

Definition wm_set_resizable (x : option (bool * bool)) (c : wm_state)
  : wm_state :=
  {| wm_title := wm_title c; wm_iconphoto := wm_iconphoto c;
     wm_size := wm_size c; wm_position := wm_position c;
     wm_minsize := wm_minsize c; wm_maxsize := wm_maxsize c;
     wm_resizable := x; wm_transient := wm_transient c;
     wm_overrideredirect := wm_overrideredirect c;
     wm_attributes := wm_attributes c; wm_visible := wm_visible c |}.

Definition wm_set_transient (x : option value) (c : wm_state) : wm_state :=
  {| wm_title := wm_title c; wm_iconphoto := wm_iconphoto c;
     wm_size := wm_size c; wm_position := wm_position c;
     wm_minsize := wm_minsize c; wm_maxsize := wm_maxsize c;
     wm_resizable := wm_resizable c; wm_transient := x;
     wm_overrideredirect := wm_overrideredirect c;
     wm_attributes := wm_attributes c; wm_visible := wm_visible c |}.

Definition wm_set_overrideredirect (x : option Z) (c : wm_state) : wm_state :=
  {| wm_title := wm_title c; wm_iconphoto := wm_iconphoto c;
     wm_size := wm_size c; wm_position := wm_position c;
     wm_minsize := wm_minsize c; wm_maxsize := wm_maxsize c;
     wm_resizable := wm_resizable c; wm_transient := wm_transient c;
     wm_overrideredirect := x; wm_attributes := wm_attributes c;
     wm_visible := wm_visible c |}.

Definition wm_set_attributes (x : gmap string value) (c : wm_state)
  : wm_state :=
  {| wm_title := wm_title c; wm_iconphoto := wm_iconphoto c;
     wm_size := wm_size c; wm_position := wm_position c;
     wm_minsize := wm_minsize c; wm_maxsize := wm_maxsize c;
     wm_resizable := wm_resizable c; wm_transient := wm_transient c;
     wm_overrideredirect := wm_overrideredirect c; wm_attributes := x;
     wm_visible := wm_visible c |}.

Definition wm_set_visible (x : bool) (c : wm_state) : wm_state :=
  {| wm_title := wm_title c; wm_iconphoto := wm_iconphoto c;
     wm_size := wm_size c; wm_position := wm_position c;
     wm_minsize := wm_minsize c; wm_maxsize := wm_maxsize c;
     wm_resizable := wm_resizable c; wm_transient := wm_transient c;
     wm_overrideredirect := wm_overrideredirect c;
     wm_attributes := wm_attributes c; wm_visible := x |}.

(** [wm geometry]: the empty string cancels the requested size, a
    string of the grammar sets the parts it names, and any other string
    is rejected and leaves the geometry as it was. *)
Definition wm_geometry (s : string) (c : wm_state) : wm_state :=
  match s with
  | EmptyString => wm_set_size None c
  | _ =>
      match parse_geometry s with
      | Some (sz, pos) =>
          wm_set_position (from_option Some (wm_position c) pos)
            (wm_set_size (from_option Some (wm_size c) sz) c)
      | None => c
      end
  end.

(** The effect of an accepted request on the window manager's record.
    Queries, idle-task flushes and requests about other objects leave
    it alone. *)
Definition wm_apply (r : request) (c : wm_state) : wm_state :=
  match r with
  | Title s => wm_set_title s c
  | Iconphoto d img => wm_set_iconphoto (Some (d, img)) c
  | Geometry s => wm_geometry s c
  | Minsize w h => wm_set_minsize (Some (w, h)) c
  | Maxsize w h => wm_set_maxsize (Some (w, h)) c
  | Resizable w h => wm_set_resizable (Some (w, h)) c
  | Transient m => wm_set_transient (Some m) c
  | Overrideredirect f => wm_set_overrideredirect (Some f) c
  | Attributes k v => wm_set_attributes (<[k := v]> (wm_attributes c)) c
  | WaitVisibility => wm_set_visible true c
  | _ => c
  end.

(** *** The world a method runs in *)

Definition binding : Type := string * string * callback.

Record world := {
  requests : list request;
  wm : wm_state;
  bindings : list binding;
  widgets : gmap string (gmap string (option string));
  self_icon : option value;
  self_style : option string
}.

(** [bind_class]: with [add="+"] the callback joins those already bound
    to the class and sequence, otherwise it replaces them. *)
Definition same_target (className sequence : string) (b : binding) : bool :=
  String.eqb (fst (fst b)) className && String.eqb (snd (fst b)) sequence.

Definition bind_to (className sequence : string) (func : callback)
    (add : string) (bs : list binding) : list binding :=
  (if String.eqb add "+" then bs
   else List.filter (fun b => negb (same_target className sequence b)) bs)
  ++ [(className, sequence, func)].

Definition log (r : request) (w : world) : world :=
  {| requests := requests w ++ [r]; wm := wm w; bindings := bindings w;
     widgets := widgets w; self_icon := self_icon w;
     self_style := self_style w |}.

Definition accept (r : request) (w : world) : world :=
  {| requests := requests w; wm := wm_apply r (wm w);
     bindings :=
       match r with
       | BindClass c s f a => bind_to c s f a (bindings w)
       | _ => bindings w
       end;
     widgets :=
       match r with
       | SetItem n k v => alter (<[k := v]>) n (widgets w)
       | _ => widgets w
       end;
     self_icon := self_icon w; self_style := self_style w |}.

Definition set_self_icon (v : value) (w : world) : world :=
  {| requests := requests w; wm := wm w; bindings := bindings w;
     widgets := widgets w; self_icon := Some v;
     self_style := self_style w |}.

Definition set_self_style (s : string) (w : world) : world :=
  {| requests := requests w; wm := wm w; bindings := bindings w;
     widgets := widgets w; self_icon := self_icon w;
     self_style := Some s |}.

(** What the running toolkit answers, and what it refuses: the default
    icon may fail to be created, and an icon photo or the new value of a
    widget option may be rejected, each with an exception of its own. *)
Record toolkit := {
  windowingsystem : string;
  default_icon : outcome value;
  iconphoto_error : bool -> value -> option exn;
  height : Z;
  width : Z;
  screenheight : Z;
  screenwidth : Z;
  configure_error : string -> string -> option string -> option exn
}.

(** *** Methods as computations

    A method reads the toolkit, threads the world and either returns or
    raises. *)

Definition tk (A : Type) : Type := toolkit -> world -> outcome A * world.

Definition ret {A} (a : A) : tk A := fun _ w => (Return a, w).

Definition bind {A B} (m : tk A) (k : A -> tk B) : tk B :=
  fun T w =>
    match m T w with
    | (Return a, w') => k a T w'
    | (Raise e, w') => (Raise e, w')
    end.

(** [try: m / except <catches>: h] *)
Definition try_except {A} (m : tk A) (catches : exn -> bool) (h : tk A)
  : tk A :=
  fun T w =>
    match m T w with
    | (Return a, w') => (Return a, w')
    | (Raise e, w') => if catches e then h T w' else (Raise e, w')
    end.

Definition when (b : bool) (m : tk unit) : tk unit :=
  if b then m else ret tt.

Definition pass : tk unit := ret tt.

(** A request that sets an option of the window: issued and accepted. *)
Definition perform (r : request) : tk unit :=
  fun _ w => (Return tt, accept r (log r w)).

(** A query: issued, answered from the toolkit. *)
Definition query {A} (r : request) (answer : toolkit -> A) : tk A :=
  fun T w => (Return (answer T), log r w).

(** A request the toolkit may refuse; a refused request changes nothing. *)
Definition attempt (r : request) (refusal : toolkit -> option exn)
  : tk unit :=
  fun T w =>
    match refusal T with
    | Some e => (Raise e, log r w)
    | None => (Return tt, accept r (log r w))
    end.

Definition enable_high_dpi_awareness (root : bool) (scaling : option value) :=
  perform (EnableHighDpiAwareness root scaling).
Definition Tk__init__ := perform TkInit.
Definition Toplevel__init__ := perform ToplevelInit.
Definition call_tk_windowingsystem : tk string :=
  query WindowingSystem windowingsystem.
Definition title (s : string) := perform (Title s).
Definition geometry (s : string) := perform (Geometry s).
Definition minsize (w h : Z) := perform (Minsize w h).
Definition maxsize (w h : Z) := perform (Maxsize w h).
Definition resizable (w h : bool) := perform (Resizable w h).
Definition transient (master : value) := perform (Transient master).
Definition overrideredirect (flag : Z) := perform (Overrideredirect flag).
Definition wait_visibility := perform WaitVisibility.
Definition attributes (name : string) (v : value) :=
  perform (Attributes name v).
Definition bind_class (className sequence : string) (func : callback)
    (add : string) :=
  perform (BindClass className sequence func add).
Definition update_idletasks := perform UpdateIdletasks.
Definition winfo_height : tk Z := query WinfoHeight height.
Definition winfo_width : tk Z := query WinfoWidth width.
Definition winfo_screenheight : tk Z := query WinfoScreenheight screenheight.
Definition winfo_screenwidth : tk Z := query WinfoScreenwidth screenwidth.

(** [Style(themename)], kept in [self._style]. *)
Definition Style (themename : string) : tk unit :=
  fun _ w =>
    (Return tt, set_self_style themename (accept (StyleInit themename)
                                            (log (StyleInit themename) w))).

(** [tkinter.PhotoImage(data=Icon.icon)] *)
Definition PhotoImage_Icon : tk value :=
  fun T w => (default_icon T, log DefaultIcon w).

Definition iconphoto (default : bool) (image : value) : tk unit :=
  attempt (Iconphoto default image)
          (fun T => iconphoto_error T default image).

(** [self._icon = v] *)
Definition assign_icon (v : value) : tk unit :=
  fun _ w => (Return tt, set_self_icon v w).

(** [a or b], where [b] is evaluated only when [a] is falsy. *)
Definition or_else (a : value) (b : tk value) : tk value :=
  if truthy a then ret a else b.

(** [self.nametowidget(name)]: the widget of that path, or [KeyError]. *)
Definition nametowidget (name : string) : tk string :=
  fun _ w =>
    (match widgets w !! name with
     | Some _ => Return name
     | None => Raise KeyError
     end, log (Nametowidget name) w).

(** [widget.cget(key)]: [TclError] for an option the widget lacks. *)
Definition cget (widget key : string) : tk (option string) :=
  fun _ w =>
    (match widgets w !! widget ≫= (.!! key) with
     | Some v => Return v
     | None => Raise TclError
     end, log (Cget widget key) w).

(** [widget[key] = v] *)
Definition setitem (widget key : string) (v : option string) : tk unit :=
  fun T w =>
    match widgets w !! widget ≫= (.!! key) with
    | Some _ =>
        attempt (SetItem widget key v)
                (fun T => configure_error T widget key v) T w
    | None => (Raise TclError, log (SetItem widget key v) w)
    end.

(** *** Reading a run

    A run leaves behind the requests it issued, each with whether it
    took effect (a refused request and a query do not).  [emit] replays
    such a list on a world. *)

Definition entry : Type := request * bool.

Definition record (e : entry) (w : world) : world :=
  if snd e then accept (fst e) (log (fst e) w) else log (fst e) w.

Definition emit (l : list entry) (w : world) : world :=
  foldl (fun w e => record e w) w l.

Definition ok (l : list request) : list entry :=
  map (fun r => (r, true)) l.

Definition accepted (l : list entry) : list request :=
  map fst (List.filter snd l).

Definition wm_run (l : list request) (c : wm_state) : wm_state :=
  foldl (fun c r => wm_apply r c) c l.


(** What [self._icon] and [self._style] were assigned, if anything. *)
Definition assigned (icon : option value) (style : option string)
    (w : world) : world :=
  {| requests := requests w; wm := wm w; bindings := bindings w;
     widgets := widgets w;
     self_icon := from_option Some (self_icon w) icon;
     self_style := from_option Some (self_style w) style |}.

(** The icon block [self._icon = iconphoto or PhotoImage(...);
    self.iconphoto(default, self._icon)]: the requests it issues, the
    icon it assigns, and the exception it raises, if any. *)
Definition icon_block (default : bool) (image : value) (T : toolkit)
  : list entry * option value * option exn :=
  if truthy image then
    ([(Iconphoto default image,
       bool_decide (iconphoto_error T default image = None))],
     Some image, iconphoto_error T default image)
  else
    match default_icon T with
    | Return img =>
        ([(DefaultIcon, true);
          (Iconphoto default img,
           bool_decide (iconphoto_error T default img = None))],
         Some img, iconphoto_error T default img)
    | Raise e => ([(DefaultIcon, true)], None, Some e)
    end.

(** Kinds of request. *)
Definition is_geometry (r : request) : bool :=
  match r with Geometry _ => true | _ => false end.
Definition is_iconphoto (r : request) : bool :=
  match r with Iconphoto _ _ => true | _ => false end.
Definition is_default_icon (r : request) : bool :=
  match r with DefaultIcon => true | _ => false end.

End Tk.

Notation "x <- m ;; k" := (Tk.bind m (fun x => k))
  (at level 100, m at next level, k at level 200, right associativity).
Notation "m ;; k" := (Tk.bind m (fun _ => k))
  (at level 100, k at level 200, right associativity).

(** ** ttkbootstrap.constants *)

(** Modelled from the spec: the constants [DISABLED] and [READONLY] of
    [ttkbootstrap.constants], a module that is not under [src/]; they
    name the widget states "disabled" and "readonly". *)
Definition DISABLED : string := "disabled".
Definition READONLY : string := "readonly".

(** [x in (a, b, ...)] on strings. *)
Definition str_in (x : string) (l : list string) : bool :=
  existsb (String.eqb x) l.

(** The two geometry strings the constructors and [place_window_center]
    build: [f"{width}x{height}"] and [f"+{xpos}+{ypos}"]. *)
Definition size_string (width height : Z) : string :=
  str_int width +:+ "x" +:+ str_int height.
Definition position_string (xpos ypos : Z) : string :=
  "+" +:+ str_int xpos +:+ "+" +:+ str_int ypos.

(** ** class Window(tkinter.Tk) *)

Module Window.

Record args := {
  title : string;
  themename : string;
  iconphoto : value;
  size : option (Z * Z);
  position : option (Z * Z);
  minsize : option (Z * Z);
  maxsize : option (Z * Z);
  resizable : option (bool * bool);
  hdpi : value;
  scaling : option value;
  transient : option value;
  overrideredirect : value;
  alpha : option value
}.

(** The defaults of the signature. *)
Definition defaults : args :=
  {| title := "ttkbootstrap"; themename := "litera"; iconphoto := None_;
     size := None; position := None; minsize := None; maxsize := None;
     resizable := None; hdpi := Bool true; scaling := None;
     transient := None; overrideredirect := Bool false;
     alpha := Some (Float 1 0) |}.

Record event := { widget : string }.

(** The body of the [try] in [_disabled_state_cursor]. *)
Definition _disabled_state_cursor_try (ev : event) : Tk.tk unit :=
  w <- Tk.nametowidget (widget ev) ;;
  st <- Tk.cget w "state" ;;
  let state := str st in
  cu <- Tk.cget w "cursor" ;;
  let cursor := str cu in
  if str_in state [DISABLED; READONLY] then
    if String.eqb cursor "arrow" then Tk.ret tt
    else Tk.setitem w "cursor" (Some "arrow")
  else
    if str_in cursor ["ibeam"; EmptyString] then Tk.ret tt
    else Tk.setitem w "cursor" None.

Definition _disabled_state_cursor (ev : event) : Tk.tk unit :=
  Tk.try_except (_disabled_state_cursor_try ev) (fun _ => true) Tk.pass.

Definition _apply_entry_type_class_binding : Tk.tk unit :=
  Tk.bind_class "TEntry" "<Configure>" Tk.Window_disabled_state_cursor "+" ;;
  Tk.bind_class "TSpinbox" "<Configure>" Tk.Window_disabled_state_cursor "+" ;;
  Tk.bind_class "TCombobox" "<Configure>" Tk.Window_disabled_state_cursor "+".

(** The body of the [try] around the icon in [__init__]. *)
Definition __init__icon_try (a : args) : Tk.tk unit :=
  icon <- Tk.or_else (iconphoto a) Tk.PhotoImage_Icon ;;
  Tk.assign_icon icon ;;
  Tk.iconphoto true icon.

Definition __init__ (a : args) : Tk.tk unit :=
  Tk.when (truthy (hdpi a)) (Tk.enable_high_dpi_awareness false None) ;;
  Tk.Tk__init__ ;;
  winsys <- Tk.call_tk_windowingsystem ;;
  match scaling a with
  | Some s => Tk.enable_high_dpi_awareness true (Some s)
  | None => Tk.ret tt
  end ;;
  Tk.try_except
    (icon <- Tk.or_else (iconphoto a) Tk.PhotoImage_Icon ;;
     Tk.assign_icon icon ;;
     Tk.iconphoto true icon)
    is_TclError
    Tk.pass ;;
  Tk.title (title a) ;;
  match size a with
  | Some (width, height) => Tk.geometry (size_string width height)
  | None => Tk.ret tt
  end ;;
  match position a with
  | Some (xpos, ypos) => Tk.geometry (position_string xpos ypos)
  | None => Tk.ret tt
  end ;;
  match minsize a with
  | Some (width, height) => Tk.minsize width height
  | None => Tk.ret tt
  end ;;
  match maxsize a with
  | Some (width, height) => Tk.maxsize width height
  | None => Tk.ret tt
  end ;;
  match resizable a with
  | Some (width, height) => Tk.resizable width height
  | None => Tk.ret tt
  end ;;
  match transient a with
  | Some master => Tk.transient master
  | None => Tk.ret tt
  end ;;
  Tk.when (truthy (overrideredirect a)) (Tk.overrideredirect 1) ;;
  match alpha a with
  | Some v =>
      Tk.when (String.eqb winsys "x11") Tk.wait_visibility ;;
      Tk.attributes "-alpha" v
  | None => Tk.ret tt
  end ;;
  _apply_entry_type_class_binding ;;
  Tk.Style (themename a).

Definition place_window_center : Tk.tk unit :=
  Tk.update_idletasks ;;
  w_height <- Tk.winfo_height ;;
  w_width <- Tk.winfo_width ;;
  s_height <- Tk.winfo_screenheight ;;
  s_width <- Tk.winfo_screenwidth ;;
  let xpos := (s_width - w_width) / 2 in
  let ypos := (s_height - w_height) / 2 in
  Tk.geometry (position_string xpos ypos).

Definition position_center : Tk.tk unit := place_window_center.

(** The property [style]: the value of [self._style], an attribute that
    exists once [__init__] has assigned it. *)
Definition style : Tk.tk string :=
  fun _ w =>
    match Tk.self_style w with
    | Some s => (Return s, w)
    | None => (Raise (Exception "AttributeError"), w)
    end.

(** *** The configuration calls, one by one

    The guarded calls of [__init__] between the icon and the class
    bindings, named so that they can be run in another order. *)
Inductive step :=
| Title | Size | Position | Minsize | Maxsize | Resizable | Transient
| Overrideredirect | Alpha.

Definition code_order : list step :=
  [Title; Size; Position; Minsize; Maxsize; Resizable; Transient;
   Overrideredirect; Alpha].

Definition configure (a : args) (winsys : string) (s : step) : Tk.tk unit :=
  match s with
  | Title => Tk.title (title a)
  | Size =>
      match size a with
      | Some (width, height) => Tk.geometry (size_string width height)
      | None => Tk.ret tt
      end
  | Position =>
      match position a with
      | Some (xpos, ypos) => Tk.geometry (position_string xpos ypos)
      | None => Tk.ret tt
      end
  | Minsize =>
      match minsize a with
      | Some (width, height) => Tk.minsize width height
      | None => Tk.ret tt
      end
  | Maxsize =>
      match maxsize a with
      | Some (width, height) => Tk.maxsize width height
      | None => Tk.ret tt
      end
  | Resizable =>
      match resizable a with
      | Some (width, height) => Tk.resizable width height
      | None => Tk.ret tt
      end
  | Transient =>
      match transient a with
      | Some master => Tk.transient master
      | None => Tk.ret tt
      end
  | Overrideredirect =>
      Tk.when (truthy (overrideredirect a)) (Tk.overrideredirect 1)
  | Alpha =>
      match alpha a with
      | Some v =>
          Tk.when (String.eqb winsys "x11") Tk.wait_visibility ;;
          Tk.attributes "-alpha" v
      | None => Tk.ret tt
      end
  end.

(** [__init__] with its configuration calls taken in the given order. *)
Definition __init__in_order (order : list step) (a : args) : Tk.tk unit :=
  Tk.when (truthy (hdpi a)) (Tk.enable_high_dpi_awareness false None) ;;
  Tk.Tk__init__ ;;
  winsys <- Tk.call_tk_windowingsystem ;;
  match scaling a with
  | Some s => Tk.enable_high_dpi_awareness true (Some s)
  | None => Tk.ret tt
  end ;;
  Tk.try_except
    (icon <- Tk.or_else (iconphoto a) Tk.PhotoImage_Icon ;;
     Tk.assign_icon icon ;;
     Tk.iconphoto true icon)
    is_TclError
    Tk.pass ;;
  foldr (fun s k => configure a winsys s ;; k)
        (_apply_entry_type_class_binding ;; Tk.Style (themename a))
        order.

(** The step [x] and no other. *)
Definition only (x s : step) : bool :=
  match x, s with
  | Title, Title => true
  | Size, Size => true
  | Position, Position => true
  | Minsize, Minsize => true
  | Maxsize, Maxsize => true
  | Resizable, Resizable => true
  | Transient, Transient => true
  | Overrideredirect, Overrideredirect => true
  | Alpha, Alpha => true
  | _, _ => false
  end.

Definition either (x y s : step) : bool := only x s || only y s.

(** The requests of each configuration call. *)
Definition step_requests (a : args) (winsys : string) (s : step)
  : list Tk.request :=
  match s with
  | Title => [Tk.Title (title a)]
  | Size =>
      match size a with
      | Some (width, height) => [Tk.Geometry (size_string width height)]
      | None => []
      end
  | Position =>
      match position a with
      | Some (xpos, ypos) => [Tk.Geometry (position_string xpos ypos)]
      | None => []
      end
  | Minsize =>
      match minsize a with
      | Some (width, height) => [Tk.Minsize width height]
      | None => []
      end
  | Maxsize =>
      match maxsize a with
      | Some (width, height) => [Tk.Maxsize width height]
      | None => []
      end
  | Resizable =>
      match resizable a with
      | Some (width, height) => [Tk.Resizable width height]
      | None => []
      end
  | Transient =>
      match transient a with
      | Some master => [Tk.Transient master]
      | None => []
      end
  | Overrideredirect =>
      if truthy (overrideredirect a) then [Tk.Overrideredirect 1] else []
  | Alpha =>
      match alpha a with
      | Some v =>
          (if String.eqb winsys "x11" then [Tk.WaitVisibility] else [])
          ++ [Tk.Attributes "-alpha" v]
      | None => []
      end
  end.

Definition configuration_requests (order : list step) (a : args)
    (winsys : string) : list Tk.request :=
  concat (map (step_requests a winsys) order).

Definition prologue_requests (a : args) : list Tk.request :=
  (if truthy (hdpi a) then [Tk.EnableHighDpiAwareness false None] else [])
  ++ [Tk.TkInit; Tk.WindowingSystem]
  ++ match scaling a with
     | Some s => [Tk.EnableHighDpiAwareness true (Some s)]
     | None => []
     end.

Definition epilogue_requests (a : args) : list Tk.request :=
  [Tk.BindClass "TEntry" "<Configure>" Tk.Window_disabled_state_cursor "+";
   Tk.BindClass "TSpinbox" "<Configure>" Tk.Window_disabled_state_cursor "+";
   Tk.BindClass "TCombobox" "<Configure>" Tk.Window_disabled_state_cursor "+";
   Tk.StyleInit (themename a)].

End Window.

(** ** class Toplevel(tkinter.Toplevel) *)

Module Toplevel.

Record args := {
  title : string;
  iconphoto : value;
  size : option (Z * Z);
  position : option (Z * Z);
  minsize : option (Z * Z);
  maxsize : option (Z * Z);
  resizable : option (bool * bool);
  transient : option value;
  overrideredirect : value;
  windowtype : option string;
  topmost : value;
  toolwindow : value;
  alpha : option value
}.

Definition defaults : args :=
  {| title := "ttkbootstrap"; iconphoto := None_; size := None;
     position := None; minsize := None; maxsize := None;
     resizable := None; transient := None;
     overrideredirect := Bool false; windowtype := None;
     topmost := Bool false; toolwindow := Bool false;
     alpha := Some (Float 1 0) |}.

Definition __init__ (a : args) : Tk.tk unit :=
  Tk.Toplevel__init__ ;;
  winsys <- Tk.call_tk_windowingsystem ;;
  Tk.when (truthy (iconphoto a))
    (icon <- Tk.or_else (iconphoto a) Tk.PhotoImage_Icon ;;
     Tk.assign_icon icon ;;
     Tk.iconphoto false icon) ;;
  Tk.title (title a) ;;
  match size a with
  | Some (width, height) => Tk.geometry (size_string width height)
  | None => Tk.ret tt
  end ;;
  match position a with
  | Some (xpos, ypos) => Tk.geometry (position_string xpos ypos)
  | None => Tk.ret tt
  end ;;
  match minsize a with
  | Some (width, height) => Tk.minsize width height
  | None => Tk.ret tt
  end ;;
  match maxsize a with
  | Some (width, height) => Tk.maxsize width height
  | None => Tk.ret tt
  end ;;
  match resizable a with
  | Some (width, height) => Tk.resizable width height
  | None => Tk.ret tt
  end ;;
  match transient a with
  | Some master => Tk.transient master
  | None => Tk.ret tt
  end ;;
  Tk.when (truthy (overrideredirect a)) (Tk.overrideredirect 1) ;;
  match windowtype a with
  | Some t => Tk.when (String.eqb winsys "x11")
                      (Tk.attributes "-type" (Str t))
  | None => Tk.ret tt
  end ;;
  Tk.when (truthy (topmost a)) (Tk.attributes "-topmost" (Int 1)) ;;
  Tk.when (truthy (toolwindow a))
    (Tk.when (String.eqb winsys "win32")
             (Tk.attributes "-toolwindow" (Int 1))) ;;
  match alpha a with
  | Some v =>
      Tk.when (String.eqb winsys "x11") Tk.wait_visibility ;;
      Tk.attributes "-alpha" v
  | None => Tk.ret tt
  end.

Definition place_window_center : Tk.tk unit :=
  Tk.update_idletasks ;;
  w_height <- Tk.winfo_height ;;
  w_width <- Tk.winfo_width ;;
  s_height <- Tk.winfo_screenheight ;;
  s_width <- Tk.winfo_screenwidth ;;
  let xpos := (s_width - w_width) / 2 in
  let ypos := (s_height - w_height) / 2 in
  Tk.geometry (position_string xpos ypos).

Definition position_center : Tk.tk unit := place_window_center.

(** *** The configuration calls, one by one *)
Inductive step :=
| Title | Size | Position | Minsize | Maxsize | Resizable | Transient
| Overrideredirect | Windowtype | Topmost | Toolwindow | Alpha.

Definition code_order : list step :=
  [Title; Size; Position; Minsize; Maxsize; Resizable; Transient;
   Overrideredirect; Windowtype; Topmost; Toolwindow; Alpha].

Definition configure (a : args) (winsys : string) (s : step) : Tk.tk unit :=
  match s with
  | Title => Tk.title (title a)
  | Size =>
      match size a with
      | Some (width, height) => Tk.geometry (size_string width height)
      | None => Tk.ret tt
      end
  | Position =>
      match position a with
      | Some (xpos, ypos) => Tk.geometry (position_string xpos ypos)
      | None => Tk.ret tt
      end
  | Minsize =>
      match minsize a with
      | Some (width, height) => Tk.minsize width height
      | None => Tk.ret tt
      end
  | Maxsize =>
      match maxsize a with
      | Some (width, height) => Tk.maxsize width height
      | None => Tk.ret tt
      end
  | Resizable =>
      match resizable a with
      | Some (width, height) => Tk.resizable width height
      | None => Tk.ret tt
      end
  | Transient =>
      match transient a with
      | Some master => Tk.transient master
      | None => Tk.ret tt
      end
  | Overrideredirect =>
      Tk.when (truthy (overrideredirect a)) (Tk.overrideredirect 1)
  | Windowtype =>
      match windowtype a with
      | Some t => Tk.when (String.eqb winsys "x11")
                          (Tk.attributes "-type" (Str t))
      | None => Tk.ret tt
      end
  | Topmost =>
      Tk.when (truthy (topmost a)) (Tk.attributes "-topmost" (Int 1))
  | Toolwindow =>
      Tk.when (truthy (toolwindow a))
        (Tk.when (String.eqb winsys "win32")
                 (Tk.attributes "-toolwindow" (Int 1)))
  | Alpha =>
      match alpha a with
      | Some v =>
          Tk.when (String.eqb winsys "x11") Tk.wait_visibility ;;
          Tk.attributes "-alpha" v
      | None => Tk.ret tt
      end
  end.

(** [__init__] with its configuration calls taken in the given order. *)
Definition __init__in_order (order : list step) (a : args) : Tk.tk unit :=
  Tk.Toplevel__init__ ;;
  winsys <- Tk.call_tk_windowingsystem ;;
  Tk.when (truthy (iconphoto a))
    (icon <- Tk.or_else (iconphoto a) Tk.PhotoImage_Icon ;;
     Tk.assign_icon icon ;;
     Tk.iconphoto false icon) ;;
  foldr (fun s k => configure a winsys s ;; k) (Tk.ret tt) order.

(** The step [x] and no other. *)
Definition only (x s : step) : bool :=
  match x, s with
  | Title, Title => true
  | Size, Size => true
  | Position, Position => true
  | Minsize, Minsize => true
  | Maxsize, Maxsize => true
  | Resizable, Resizable => true
  | Transient, Transient => true
  | Overrideredirect, Overrideredirect => true
  | Windowtype, Windowtype => true
  | Topmost, Topmost => true
  | Toolwindow, Toolwindow => true
  | Alpha, Alpha => true
  | _, _ => false
  end.

Definition either (x y s : step) : bool := only x s || only y s.

(** The requests of each configuration call. *)
Definition step_requests (a : args) (winsys : string) (s : step)
  : list Tk.request :=
  match s with
  | Title => [Tk.Title (title a)]
  | Size =>
      match size a with
      | Some (width, height) => [Tk.Geometry (size_string width height)]
      | None => []
      end
  | Position =>
      match position a with
      | Some (xpos, ypos) => [Tk.Geometry (position_string xpos ypos)]
      | None => []
      end
  | Minsize =>
      match minsize a with
      | Some (width, height) => [Tk.Minsize width height]
      | None => []
      end
  | Maxsize =>
      match maxsize a with
      | Some (width, height) => [Tk.Maxsize width height]
      | None => []
      end
  | Resizable =>
      match resizable a with
      | Some (width, height) => [Tk.Resizable width height]
      | None => []
      end
  | Transient =>
      match transient a with
      | Some master => [Tk.Transient master]
      | None => []
      end
  | Overrideredirect =>
      if truthy (overrideredirect a) then [Tk.Overrideredirect 1] else []
  | Windowtype =>
      match windowtype a with
      | Some t =>
          if String.eqb winsys "x11" then [Tk.Attributes "-type" (Str t)]
          else []
      | None => []
      end
  | Topmost =>
      if truthy (topmost a) then [Tk.Attributes "-topmost" (Int 1)] else []
  | Toolwindow =>
      if truthy (toolwindow a) && String.eqb winsys "win32"
      then [Tk.Attributes "-toolwindow" (Int 1)] else []
  | Alpha =>
      match alpha a with
      | Some v =>
          (if String.eqb winsys "x11" then [Tk.WaitVisibility] else [])
          ++ [Tk.Attributes "-alpha" v]
      | None => []
      end
  end.

Definition configuration_requests (order : list step) (a : args)
    (winsys : string) : list Tk.request :=
  concat (map (step_requests a winsys) order).

End Toplevel.

(** ** Running a method *)

Definition run {A} (m : Tk.tk A) (T : Tk.toolkit) (w : Tk.world)
  : outcome A * Tk.world := m T w.

(** The requests a run added to those already issued. *)
Definition issued {A} (m : Tk.tk A) (T : Tk.toolkit) (w : Tk.world)
  : list Tk.request :=
  drop (length (Tk.requests w)) (Tk.requests (snd (m T w))).

Definition returns {A} (m : Tk.tk A) (T : Tk.toolkit) (w : Tk.world) : Prop :=
  exists a, fst (m T w) = Return a.

(** An empty world and a toolkit that refuses nothing, to run examples in. *)
Definition wm0 : Tk.wm_state :=
  {| Tk.wm_title := "tk"; Tk.wm_iconphoto := None; Tk.wm_size := None;
     Tk.wm_position := None; Tk.wm_minsize := None; Tk.wm_maxsize := None;
     Tk.wm_resizable := None; Tk.wm_transient := None;
     Tk.wm_overrideredirect := None; Tk.wm_attributes := ∅;
     Tk.wm_visible := false |}.

Definition world0 : Tk.world :=
  {| Tk.requests := []; Tk.wm := wm0; Tk.bindings := [];
     Tk.widgets := ∅; Tk.self_icon := None; Tk.self_style := None |}.

Definition toolkit0 (winsys : string) : Tk.toolkit :=
  {| Tk.windowingsystem := winsys;
     Tk.default_icon := Return (PhotoImage "pyimage1");
     Tk.iconphoto_error := fun _ _ => None;
     Tk.height := 200; Tk.width := 200;
     Tk.screenheight := 1080; Tk.screenwidth := 1920;
     Tk.configure_error := fun _ _ _ => None |}.

(** The function behind each callback handed to [bind_class]. *)
Definition dispatch (c : Tk.callback) : Window.event -> Tk.tk unit :=
  match c with
  | Tk.Window_disabled_state_cursor => Window._disabled_state_cursor
  end.

(** The requests of a kind among those issued. *)
Definition calls (kind : Tk.request -> bool) (tr : list Tk.request)
  : list Tk.request :=
  List.filter kind tr.


(** A world with one entry widget, in the given state and with the given
    cursor. *)
Definition world_with_entry (state cursor : option string) : Tk.world :=
  {| Tk.requests := []; Tk.wm := wm0; Tk.bindings := [];
     Tk.widgets :=
       {[ ".!entry" := {[ "state" := state; "cursor" := cursor ]} ]};
     Tk.self_icon := None; Tk.self_style := None |}.

(** ** Summaries of a run *)

(** A string that does not go on with a digit: where a number stops. *)
Definition no_digit_head (r : string) : Prop :=
  match r with
  | String c _ => Tk.is_digit c = false
  | EmptyString => True
  end.

(** Of two assignments to an attribute, the later one stays. *)
Definition later {A} (first second : option A) : option A :=
  match second with Some _ => second | None => first end.

(** [yields m T o l icon style]: with the toolkit [T] and from any world,
    [m] ends with the outcome [o], having issued the requests [l] and
    assigned [self._icon] and [self._style] as told. *)
Definition yields {A} (m : Tk.tk A) (T : Tk.toolkit) (o : outcome A)
    (l : list Tk.entry) (icon : option value) (style : option string)
  : Prop :=
  forall w, m T w = (o, Tk.assigned icon style (Tk.emit l w)).

(** The exception that leaves the constructor of [Window], if any: one
    raised by the icon block and not caught as a [TclError]. *)
Definition Window_aborts (a : Window.args) (T : Tk.toolkit) : option exn :=
  match Tk.icon_block true (Window.iconphoto a) T with
  | (_, _, Some e) => if is_TclError e then None else Some e
  | (_, _, None) => None
  end.

(** What the constructor of [Window] issues, its configuration calls
    taken in the given order. *)
Definition Window_entries (order : list Window.step) (a : Window.args)
    (T : Tk.toolkit) : list Tk.entry :=
  Tk.ok (Window.prologue_requests a)
  ++ fst (fst (Tk.icon_block true (Window.iconphoto a) T))
  ++ match Window_aborts a T with
     | Some _ => []
     | None =>
         Tk.ok (Window.configuration_requests order a (Tk.windowingsystem T))
         ++ Tk.ok (Window.epilogue_requests a)
     end.

(** The same for [Toplevel], whose icon request is not inside a [try]. *)
Definition Toplevel_aborts (a : Toplevel.args) (T : Tk.toolkit)
  : option exn :=
  if truthy (Toplevel.iconphoto a)
  then Tk.iconphoto_error T false (Toplevel.iconphoto a)
  else None.

Definition Toplevel_icon_entries (a : Toplevel.args) (T : Tk.toolkit)
  : list Tk.entry :=
  if truthy (Toplevel.iconphoto a)
  then [(Tk.Iconphoto false (Toplevel.iconphoto a),
         bool_decide
           (Tk.iconphoto_error T false (Toplevel.iconphoto a) = None))]
  else [].

Definition Toplevel_entries (order : list Toplevel.step) (a : Toplevel.args)
    (T : Tk.toolkit) : list Tk.entry :=
  Tk.ok [Tk.ToplevelInit; Tk.WindowingSystem]
  ++ Toplevel_icon_entries a T
  ++ match Toplevel_aborts a T with
     | Some _ => []
     | None =>
         Tk.ok (Toplevel.configuration_requests order a
                  (Tk.windowingsystem T))
     end.



(** A toolkit on X11 that refuses every icon photo. *)
Definition toolkit_refusing_icons : Tk.toolkit :=
  {| Tk.windowingsystem := "x11";
     Tk.default_icon := Return (PhotoImage "pyimage1");
     Tk.iconphoto_error := fun _ _ => Some TclError;
     Tk.height := 200; Tk.width := 200;
     Tk.screenheight := 1080; Tk.screenwidth := 1920;
     Tk.configure_error := fun _ _ _ => None |}.

(** A toolkit in which the default icon cannot be created: with
    [tkinter.NoDefaultRoot()] in force, [PhotoImage] raises
    [RuntimeError]. *)
Definition toolkit_without_default_root : Tk.toolkit :=
  {| Tk.windowingsystem := "x11";
     Tk.default_icon := Raise RuntimeError;
     Tk.iconphoto_error := fun _ _ => None;
     Tk.height := 200; Tk.width := 200;
     Tk.screenheight := 1080; Tk.screenwidth := 1920;
     Tk.configure_error := fun _ _ _ => None |}.

(** ** What the constructors leave recorded *)

(** The window manager's record after the configuration calls of
    [Window], from the record [c] before them. *)
Definition Window_configured (a : Window.args) (winsys : string)
    (c : Tk.wm_state) : Tk.wm_state :=
  {| Tk.wm_title := Window.title a;
     Tk.wm_iconphoto := Tk.wm_iconphoto c;
     Tk.wm_size :=
       match Window.size a with
       | Some (width, height) =>
           if (0 <=? width) && (0 <=? height)
           then Some (width, height) else Tk.wm_size c
       | None => Tk.wm_size c
       end;
     Tk.wm_position :=
       match Window.position a with
       | Some (xpos, ypos) => Some ((false, xpos), (false, ypos))
       | None => Tk.wm_position c
       end;
     Tk.wm_minsize := from_option Some (Tk.wm_minsize c) (Window.minsize a);
     Tk.wm_maxsize := from_option Some (Tk.wm_maxsize c) (Window.maxsize a);
     Tk.wm_resizable :=
       from_option Some (Tk.wm_resizable c) (Window.resizable a);
     Tk.wm_transient :=
       from_option Some (Tk.wm_transient c) (Window.transient a);
     Tk.wm_overrideredirect :=
       if truthy (Window.overrideredirect a) then Some 1
       else Tk.wm_overrideredirect c;
     Tk.wm_attributes :=
       match Window.alpha a with
       | Some v => <["-alpha" := v]> (Tk.wm_attributes c)
       | None => Tk.wm_attributes c
       end;
     Tk.wm_visible :=
       match Window.alpha a with
       | Some _ => String.eqb winsys "x11" || Tk.wm_visible c
       | None => Tk.wm_visible c
       end |}.

(** The same for [Toplevel], in two stages: the calls up to
    [overrideredirect], then the attributes. *)
Definition Toplevel_basics (a : Toplevel.args) (c : Tk.wm_state)
  : Tk.wm_state :=
  {| Tk.wm_title := Toplevel.title a;
     Tk.wm_iconphoto := Tk.wm_iconphoto c;
     Tk.wm_size :=
       match Toplevel.size a with
       | Some (width, height) =>
           if (0 <=? width) && (0 <=? height)
           then Some (width, height) else Tk.wm_size c
       | None => Tk.wm_size c
       end;
     Tk.wm_position :=
       match Toplevel.position a with
       | Some (xpos, ypos) => Some ((false, xpos), (false, ypos))
       | None => Tk.wm_position c
       end;
     Tk.wm_minsize := from_option Some (Tk.wm_minsize c) (Toplevel.minsize a);
     Tk.wm_maxsize := from_option Some (Tk.wm_maxsize c) (Toplevel.maxsize a);
     Tk.wm_resizable :=
       from_option Some (Tk.wm_resizable c) (Toplevel.resizable a);
     Tk.wm_transient :=
       from_option Some (Tk.wm_transient c) (Toplevel.transient a);
     Tk.wm_overrideredirect :=
       if truthy (Toplevel.overrideredirect a) then Some 1
       else Tk.wm_overrideredirect c;
     Tk.wm_attributes := Tk.wm_attributes c;
     Tk.wm_visible := Tk.wm_visible c |}.

Definition Toplevel_attributes (a : Toplevel.args) (winsys : string)
    (m : gmap string value) : gmap string value :=
  let m :=
    match Toplevel.windowtype a with
    | Some t => if String.eqb winsys "x11" then <["-type" := Str t]> m else m
    | None => m
    end in
  let m :=
    if truthy (Toplevel.topmost a) then <["-topmost" := Int 1]> m else m in
  let m :=
    if truthy (Toplevel.toolwindow a) && String.eqb winsys "win32"
    then <["-toolwindow" := Int 1]> m else m in
  match Toplevel.alpha a with
  | Some v => <["-alpha" := v]> m
  | None => m
  end.

Definition Toplevel_configured (a : Toplevel.args) (winsys : string)
    (c : Tk.wm_state) : Tk.wm_state :=
  Tk.wm_set_visible
    match Toplevel.alpha a with
    | Some _ => String.eqb winsys "x11" || Tk.wm_visible c
    | None => Tk.wm_visible c
    end
    (Tk.wm_set_attributes (Toplevel_attributes a winsys (Tk.wm_attributes c))
       (Toplevel_basics a c)).

(** The window manager's record after the icon block. *)
Definition icon_recorded (default : bool) (image : value) (T : Tk.toolkit)
    (c : Tk.wm_state) : Tk.wm_state :=
  match snd (fst (Tk.icon_block default image T)) with
  | Some img =>
      match Tk.iconphoto_error T default img with
      | None => Tk.wm_set_iconphoto (Some (default, img)) c
      | Some _ => c
      end
  | None => c
  end.

(** More kinds of request. *)
Definition is_setitem (r : Tk.request) : bool :=
  match r with Tk.SetItem _ _ _ => true | _ => false end.
Definition is_bind_class (r : Tk.request) : bool :=
  match r with Tk.BindClass _ _ _ _ => true | _ => false end.
Definition is_high_dpi (r : Tk.request) : bool :=
  match r with Tk.EnableHighDpiAwareness _ _ => true | _ => false end.


(** * Facts *)

(** Case analysis on the guards of a configuration call. *)
Ltac guards :=
  repeat match goal with
         | |- context [truthy ?x] => destruct (truthy x)
         | |- context [String.eqb ?x ?y] => is_var x; destruct (String.eqb x y)
         | |- context [match ?x with Some _ => _ | None => _ end] =>
             destruct x as [?|]
         | |- context [match ?p with (_, _) => _ end] => destruct p
         end.

(** Deciding which steps issue requests of a kind, one step at a time. *)
Ltac by_step :=
  intros s; destruct s; simpl; repeat case_match; simplify_eq; done.
Ltac kind := intros r; destruct r; simpl; done.

(** ** Decimal strings and the geometry grammar *)

Lemma span_digits_stop r :
  no_digit_head r -> Tk.span_digits r = (EmptyString, r).
Proof. destruct r as [|c r]; simpl; [done|]. by intros ->. Qed.

Lemma span_digits_uint d r :
  no_digit_head r ->
  Tk.span_digits (NilEmpty.string_of_uint d +:+ r)
  = (NilEmpty.string_of_uint d, r).
Proof.
  intros Hr. induction d; simpl; rewrite ?IHd; auto using span_digits_stop.
Qed.

Lemma uint_head_digit d :
  d <> Nil ->
  exists c s, NilEmpty.string_of_uint d = String c s /\ Tk.is_digit c = true.
Proof. destruct d; [done|..]; intros _; simpl; eauto. Qed.

Lemma is_digit_not c x :
  Tk.is_digit c = true -> Tk.is_digit x = false -> Ascii.eqb c x = false.
Proof. intros H1 H2. destruct (Ascii.eqb_spec c x); [congruence|done]. Qed.

Lemma strtoul_uint d r :
  d <> Nil -> no_digit_head r ->
  Tk.strtoul (NilZero.string_of_uint d +:+ r) = Some (Z.of_uint d, r).
Proof.
  intros Hd Hr. unfold Tk.strtoul.
  replace (NilZero.string_of_uint d) with (NilEmpty.string_of_uint d)
    by (by destruct d).
  rewrite span_digits_uint by done.
  replace (NilEmpty.string_of_uint d) with (NilZero.string_of_uint d)
    by (by destruct d).
  by rewrite NilZero.usu.
Qed.

Lemma of_uint_pos p : Z.of_uint (Pos.to_uint p) = Z.pos p.
Proof. unfold Z.of_uint. by rewrite DecimalPos.Unsigned.of_to. Qed.

Lemma strtol_str_int z r :
  no_digit_head r -> Tk.strtol (str_int z +:+ r) = Some (z, r).
Proof.
  intros Hr. unfold str_int. destruct z as [|p|p]; simpl Z.to_int.
  - simpl. unfold Tk.strtoul. simpl. rewrite span_digits_stop by done. done.
  - simpl NilZero.string_of_int.
    pose proof (DecimalPos.Unsigned.to_uint_nonnil p) as Hn.
    destruct (uint_head_digit _ Hn) as (c & s & Hs & Hc).
    pose proof (strtoul_uint _ r Hn Hr) as Hu.
    replace (NilZero.string_of_uint (Pos.to_uint p))
      with (NilEmpty.string_of_uint (Pos.to_uint p)) in *
      by (by destruct (Pos.to_uint p)).
    rewrite Hs in *. simpl. rewrite (is_digit_not c "-") by done.
    simpl in Hu. rewrite Hu. by rewrite of_uint_pos.
  - simpl. rewrite strtoul_uint
      by (done || apply DecimalPos.Unsigned.to_uint_nonnil).
    simpl. by rewrite of_uint_pos.
Qed.

Lemma append_empty s : s +:+ EmptyString = s.
Proof.
  induction s as [|a s IH]; [done|].
  change (String a (s +:+ EmptyString) = String a s). by rewrite IH.
Qed.

Lemma append_cons c s r : String c s +:+ r = String c (s +:+ r).
Proof. done. Qed.

Lemma str_int_nonneg z :
  0 <= z -> exists c s, str_int z = String c s /\ Tk.is_digit c = true.
Proof.
  intros Hz. unfold str_int. destruct z as [|p|p]; [by eexists _, _|..|lia].
  simpl. pose proof (DecimalPos.Unsigned.to_uint_nonnil p) as Hn.
  destruct (uint_head_digit _ Hn) as (c & s & Hs & Hc).
  exists c, s. split; [|done]. rewrite <- Hs. by destruct (Pos.to_uint p).
Qed.

Lemma str_int_neg z :
  z < 0 -> str_int z = String "-" (str_int (- z)).
Proof. intros Hz. destruct z as [|p|p]; try lia. done. Qed.

Lemma strtoul_str_int z r :
  0 <= z -> no_digit_head r -> Tk.strtoul (str_int z +:+ r) = Some (z, r).
Proof.
  intros Hz Hr. pose proof (strtol_str_int z r Hr) as H.
  destruct (str_int_nonneg z Hz) as (c & s & Hs & Hc).
  rewrite Hs in *. simpl in H. by rewrite (is_digit_not c "-") in H.
Qed.

Lemma strtoul_no_digit r : no_digit_head r -> Tk.strtoul r = None.
Proof. intros Hr. unfold Tk.strtoul. by rewrite span_digits_stop. Qed.

Lemma append_nil_l s : EmptyString +:+ s = s.
Proof. done. Qed.

Ltac str_norm := rewrite ?append_cons, ?append_nil_l.

Lemma parse_position_string x y :
  Tk.parse_geometry (position_string x y)
  = Some (None, Some ((false, x), (false, y))).
Proof.
  unfold position_string, Tk.parse_geometry. str_norm. simpl.
  rewrite strtol_str_int by done. simpl.
  rewrite <- (append_empty (str_int y)), strtol_str_int by done. done.
Qed.

Lemma parse_size_string w h :
  Tk.parse_geometry (size_string w h)
  = if (0 <=? w) && (0 <=? h) then Some (Some (w, h), None) else None.
Proof.
  unfold size_string, Tk.parse_geometry.
  destruct (Z.leb_spec 0 w) as [Hw|Hw]; simpl.
  - pose proof (strtoul_str_int w ("x" +:+ str_int h) Hw eq_refl) as Hu.
    destruct (str_int_nonneg w Hw) as (c & s & Hs & Hc).
    rewrite Hs in *. revert Hu. str_norm. intros Hu. simpl.
    rewrite (is_digit_not c "=") by done. simpl. rewrite Hc.
    rewrite Hu. simpl.
    destruct (Z.leb_spec 0 h) as [Hh|Hh].
    + rewrite <- (append_empty (str_int h)), strtoul_str_int by done. done.
    + rewrite str_int_neg by done. by rewrite strtoul_no_digit.
  - rewrite str_int_neg by done. str_norm. simpl.
    assert (0 <= - w) as Hw' by lia.
    rewrite strtol_str_int by done. done.
Qed.

(** ** The logic of runs *)

Section Rules.
Context (T : Tk.toolkit).

Lemma assigned_none w : Tk.assigned None None w = w.
Proof. by destruct w. Qed.

Lemma assigned_assigned i1 s1 i2 s2 w :
  Tk.assigned i2 s2 (Tk.assigned i1 s1 w)
  = Tk.assigned (later i1 i2) (later s1 s2) w.
Proof. by destruct i1, i2, s1, s2. Qed.

Lemma record_assigned e i s w :
  Tk.record e (Tk.assigned i s w) = Tk.assigned i s (Tk.record e w).
Proof. destruct e as [r []]; reflexivity. Qed.

Lemma emit_assigned l i s w :
  Tk.emit l (Tk.assigned i s w) = Tk.assigned i s (Tk.emit l w).
Proof.
  revert w. induction l as [|e l IH]; intros w; [done|].
  simpl. by rewrite record_assigned, IH.
Qed.

Lemma emit_app l1 l2 w : Tk.emit (l1 ++ l2) w = Tk.emit l2 (Tk.emit l1 w).
Proof. apply foldl_app. Qed.

Lemma yields_ret {A} (a : A) : yields (Tk.ret a) T (Return a) [] None None.
Proof. intros w. unfold Tk.ret. by rewrite assigned_none. Qed.

Lemma yields_perform r :
  yields (Tk.perform r) T (Return tt) [(r, true)] None None.
Proof. intros w. by rewrite assigned_none. Qed.

Lemma yields_attempt r refusal :
  yields (Tk.attempt r refusal) T
    (match refusal T with Some e => Raise e | None => Return tt end)
    [(r, bool_decide (refusal T = None))] None None.
Proof.
  intros w. rewrite assigned_none. unfold Tk.attempt.
  by destruct (refusal T).
Qed.

Lemma yields_bind {A B} (m : Tk.tk A) (k : A -> Tk.tk B) a o l1 l2 i1 s1 i2 s2 :
  yields m T (Return a) l1 i1 s1 ->
  yields (k a) T o l2 i2 s2 ->
  yields (Tk.bind m k) T o (l1 ++ l2) (later i1 i2) (later s1 s2).
Proof.
  intros H1 H2 w. unfold Tk.bind. rewrite H1, H2.
  by rewrite emit_assigned, assigned_assigned, emit_app.
Qed.

Lemma yields_bind_raise {A B} (m : Tk.tk A) (k : A -> Tk.tk B) e l i s :
  yields m T (Raise e) l i s ->
  yields (Tk.bind m k) T (Raise e) l i s.
Proof. intros H w. unfold Tk.bind. by rewrite H. Qed.

Lemma yields_try_return {A} (m h : Tk.tk A) catches a l i s :
  yields m T (Return a) l i s ->
  yields (Tk.try_except m catches h) T (Return a) l i s.
Proof. intros H w. unfold Tk.try_except. by rewrite H. Qed.

Lemma yields_try_caught {A} (m h : Tk.tk A) catches e o l1 l2 i1 s1 i2 s2 :
  yields m T (Raise e) l1 i1 s1 ->
  catches e = true ->
  yields h T o l2 i2 s2 ->
  yields (Tk.try_except m catches h) T o (l1 ++ l2) (later i1 i2) (later s1 s2).
Proof.
  intros H1 Hc H2 w. unfold Tk.try_except. rewrite H1, Hc, H2.
  by rewrite emit_assigned, assigned_assigned, emit_app.
Qed.

Lemma yields_try_uncaught {A} (m h : Tk.tk A) catches e l i s :
  yields m T (Raise e) l i s ->
  catches e = false ->
  yields (Tk.try_except m catches h) T (Raise e) l i s.
Proof. intros H Hc w. unfold Tk.try_except. by rewrite H, Hc. Qed.

Lemma yields_assign_icon v :
  yields (Tk.assign_icon v) T (Return tt) [] (Some v) None.
Proof. intros w. by destruct w. Qed.

Lemma yields_Style s :
  yields (Tk.Style s) T (Return tt) [(Tk.StyleInit s, true)] None (Some s).
Proof. intros w. by destruct w. Qed.

Lemma yields_PhotoImage_Icon :
  yields Tk.PhotoImage_Icon T (Tk.default_icon T) [(Tk.DefaultIcon, true)]
    None None.
Proof. intros w. by rewrite assigned_none. Qed.
End Rules.

Section Steps.
Context (T : Tk.toolkit).

Lemma yields_call_tk_windowingsystem :
  yields Tk.call_tk_windowingsystem T (Return (Tk.windowingsystem T))
    [(Tk.WindowingSystem, true)] None None.
Proof. intros w. by rewrite assigned_none. Qed.

Lemma yields_seq (m k : Tk.tk unit) o l1 l2 i1 s1 i2 s2 :
  yields m T (Return tt) l1 i1 s1 ->
  yields k T o l2 i2 s2 ->
  yields (m ;; k) T o (l1 ++ l2) (later i1 i2) (later s1 s2).
Proof. intros H1 H2. by eapply yields_bind. Qed.

Lemma yields_eq {A} (m : Tk.tk A) o l i s o' l' i' s' :
  yields m T o l i s -> o = o' -> l = l' -> i = i' -> s = s' ->
  yields m T o' l' i' s'.
Proof. by intros H <- <- <- <-. Qed.

Lemma yields_performs (m k : Tk.tk unit) o l1 l2 i s :
  yields m T (Return tt) (Tk.ok l1) None None ->
  yields k T o l2 i s ->
  yields (m ;; k) T o (Tk.ok l1 ++ l2) i s.
Proof.
  intros H1 H2. eapply yields_eq; [by eapply yields_seq|try done..];
    by destruct i, s.
Qed.

Lemma Window_configure_yields a winsys s :
  yields (Window.configure a winsys s) T (Return tt)
    (Tk.ok (Window.step_requests a winsys s)) None None.
Proof.
  destruct s; simpl;
    repeat match goal with
           | |- context [match ?x with Some _ => _ | None => _ end] =>
               destruct x as [[]|] || destruct x
           | |- context [if ?b then _ else _] => destruct b
           end; simpl;
    try apply yields_perform; try apply yields_ret;
    by apply (yields_seq _ _ _ [_] [_] None None None None), yields_perform;
       apply yields_perform.
Qed.
End Steps.

Section WindowConstructor.
Context (T : Tk.toolkit).

Lemma ok_app l1 l2 : Tk.ok (l1 ++ l2) = Tk.ok l1 ++ Tk.ok l2.
Proof. apply map_app. Qed.

Lemma Window_steps_yields a winsys (fin : Tk.tk unit) o lf i s order :
  yields fin T o lf i s ->
  yields (foldr (fun s k => Window.configure a winsys s ;; k) fin order) T o
    (Tk.ok (Window.configuration_requests order a winsys) ++ lf) i s.
Proof.
  intros Hfin. induction order as [|x order IH]; simpl; [done|].
  unfold Window.configuration_requests. simpl.
  rewrite ok_app, <- app_assoc.
  eapply yields_performs; [apply Window_configure_yields|apply IH].
Qed.

(** The icon block, with its three ways out. *)
Lemma icon_block_yields default image :
  yields (icon <- Tk.or_else image Tk.PhotoImage_Icon ;;
          Tk.assign_icon icon ;; Tk.iconphoto default icon) T
    (match snd (Tk.icon_block default image T) with
     | Some e => Raise e
     | None => Return tt
     end)
    (fst (fst (Tk.icon_block default image T)))
    (snd (fst (Tk.icon_block default image T))) None.
Proof.
  unfold Tk.icon_block, Tk.or_else.
  destruct (truthy image).
  - eapply yields_eq.
    + eapply yields_bind; [apply yields_ret|].
      eapply yields_seq; [apply yields_assign_icon|apply yields_attempt].
    + done.
    + done.
    + done.
    + done.
  - destruct (Tk.default_icon T) as [img|e] eqn:Hd.
    + eapply yields_eq.
      * eapply yields_bind.
        { eapply yields_eq; [apply yields_PhotoImage_Icon|by rewrite Hd|done..]. }
        eapply yields_seq; [apply yields_assign_icon|apply yields_attempt].
      * done.
      * done.
      * done.
      * done.
    + eapply yields_eq.
      * eapply yields_bind_raise.
        eapply yields_eq; [apply yields_PhotoImage_Icon|by rewrite Hd|done..].
      * done.
      * done.
      * done.
      * done.
Qed.

Lemma Window_epilogue_yields a :
  yields
    (Window._apply_entry_type_class_binding ;; Tk.Style (Window.themename a))
    T (Return tt) (Tk.ok (Window.epilogue_requests a)) None
    (Some (Window.themename a)).
Proof.
  eapply yields_eq.
  - eapply yields_seq; [|apply yields_Style].
    eapply yields_seq; [apply yields_perform|].
    eapply yields_seq; apply yields_perform.
  - done.
  - done.
  - done.
  - done.
Qed.

Lemma Window_prologue_yields a (k : string -> Tk.tk unit) o l i s :
  yields (k (Tk.windowingsystem T)) T o l i s ->
  yields
    (Tk.when (truthy (Window.hdpi a))
       (Tk.enable_high_dpi_awareness false None) ;;
     Tk.Tk__init__ ;;
     winsys <- Tk.call_tk_windowingsystem ;;
     match Window.scaling a with
     | Some s => Tk.enable_high_dpi_awareness true (Some s)
     | None => Tk.ret tt
     end ;; k winsys) T o (Tk.ok (Window.prologue_requests a) ++ l) i s.
Proof.
  intros Hk. unfold Window.prologue_requests.
  destruct (truthy (Window.hdpi a)), (Window.scaling a);
    (eapply yields_eq;
     [ eapply yields_seq; [apply yields_perform || apply yields_ret|];
       eapply yields_seq; [apply yields_perform|];
       eapply yields_bind; [apply yields_call_tk_windowingsystem|];
       eapply yields_seq; [apply yields_perform || apply yields_ret|];
       apply Hk
     | done | done | by destruct i | by destruct s ]).
Qed.

Lemma Window_yields order a :
  yields (Window.__init__in_order order a) T
    (match Window_aborts a T with Some e => Raise e | None => Return tt end)
    (Window_entries order a T)
    (snd (fst (Tk.icon_block true (Window.iconphoto a) T)))
    (match Window_aborts a T with
     | Some _ => None
     | None => Some (Window.themename a)
     end).
Proof.
  unfold Window.__init__in_order, Window_entries.
  apply Window_prologue_yields.
  pose proof (icon_block_yields true (Window.iconphoto a)) as Hi.
  unfold Window_aborts.
  destruct (Tk.icon_block true (Window.iconphoto a) T) as [[li icon] [e|]];
    simpl in *.
  - destruct (is_TclError e) eqn:He.
    + eapply yields_eq.
      * eapply yields_bind.
        { eapply yields_try_caught; [apply Hi|done|apply yields_ret]. }
        apply Window_steps_yields, Window_epilogue_yields.
      * done.
      * by rewrite app_nil_r.
      * by destruct icon.
      * done.
    + eapply yields_eq.
      * eapply yields_bind_raise, yields_try_uncaught; [apply Hi|done].
      * done.
      * by rewrite app_nil_r.
      * done.
      * done.
  - eapply yields_eq.
    + eapply yields_bind.
      { eapply yields_try_return, Hi. }
      apply Window_steps_yields, Window_epilogue_yields.
    + done.
    + done.
    + by destruct icon.
    + done.
Qed.

Lemma Window_init_in_order a :
  Window.__init__ a = Window.__init__in_order Window.code_order a.
Proof. reflexivity. Qed.
End WindowConstructor.

Section ToplevelConstructor.
Context (T : Tk.toolkit).

Lemma requests_record e w :
  Tk.requests (Tk.record e w) = Tk.requests w ++ [fst e].
Proof. by destruct e as [r []]. Qed.

Lemma requests_emit l w :
  Tk.requests (Tk.emit l w) = Tk.requests w ++ map fst l.
Proof.
  revert w. induction l as [|e l IH]; intros w; simpl.
  - by rewrite app_nil_r.
  - by rewrite IH, requests_record, <- app_assoc.
Qed.

Lemma wm_emit l w :
  Tk.wm (Tk.emit l w) = Tk.wm_run (Tk.accepted l) (Tk.wm w).
Proof.
  revert w. induction l as [|[r []] l IH]; intros w; simpl; [done|..];
    by rewrite IH.
Qed.


Lemma accepted_ok l : Tk.accepted (Tk.ok l) = l.
Proof.
  unfold Tk.accepted, Tk.ok.
  induction l as [|r l IH]; simpl; [done|]. by rewrite IH.
Qed.

Lemma accepted_app l1 l2 :
  Tk.accepted (l1 ++ l2) = Tk.accepted l1 ++ Tk.accepted l2.
Proof. unfold Tk.accepted. by rewrite List.filter_app, map_app. Qed.

Lemma issued_ok l : map fst (Tk.ok l) = l.
Proof.
  unfold Tk.ok. induction l as [|r l IH]; simpl; [done|]. by rewrite IH.
Qed.

Section Yields.
Context {A : Type} (m : Tk.tk A) (o : outcome A) (l : list Tk.entry)
        (i : option value) (s : option string).
Hypothesis Hm : yields m T o l i s.

Lemma yields_outcome w : fst (m T w) = o.
Proof. by rewrite Hm. Qed.

Lemma yields_requests w :
  Tk.requests (snd (m T w)) = Tk.requests w ++ map fst l.
Proof. rewrite Hm. simpl. apply requests_emit. Qed.

Lemma yields_issued w : issued m T w = map fst l.
Proof. unfold issued. rewrite yields_requests. by rewrite drop_app_length. Qed.

Lemma yields_wm w :
  Tk.wm (snd (m T w)) = Tk.wm_run (Tk.accepted l) (Tk.wm w).
Proof. rewrite Hm. simpl. apply wm_emit. Qed.

End Yields.

Lemma Toplevel_configure_yields a winsys s :
  yields (Toplevel.configure a winsys s) T (Return tt)
    (Tk.ok (Toplevel.step_requests a winsys s)) None None.
Proof.
  destruct s; simpl; unfold Tk.when;
    repeat match goal with
           | |- context [truthy ?x] => destruct (truthy x)
           | |- context [String.eqb ?x ?y] => destruct (String.eqb x y)
           | |- context [match ?x with Some _ => _ | None => _ end] =>
               destruct x as [[]|] || destruct x
           end; simpl;
    try apply yields_perform; try apply yields_ret;
    by apply (yields_seq _ _ _ _ [_] [_] None None None None), yields_perform;
       apply yields_perform.
Qed.

Lemma Toplevel_steps_yields a winsys (fin : Tk.tk unit) o lf i s order :
  yields fin T o lf i s ->
  yields (foldr (fun s k => Toplevel.configure a winsys s ;; k) fin order) T o
    (Tk.ok (Toplevel.configuration_requests order a winsys) ++ lf) i s.
Proof.
  intros Hfin. induction order as [|x order IH]; simpl; [done|].
  unfold Toplevel.configuration_requests. simpl.
  rewrite ok_app, <- app_assoc.
  eapply yields_performs; [apply Toplevel_configure_yields|apply IH].
Qed.

Lemma Toplevel_yields order a :
  yields (Toplevel.__init__in_order order a) T
    (match Toplevel_aborts a T with Some e => Raise e | None => Return tt end)
    (Toplevel_entries order a T)
    (if truthy (Toplevel.iconphoto a)
     then Some (Toplevel.iconphoto a) else None)
    None.
Proof.
  unfold Toplevel.__init__in_order, Toplevel_entries, Toplevel_aborts,
    Toplevel_icon_entries.
  pose proof (icon_block_yields T false (Toplevel.iconphoto a)) as Hi.
  unfold Tk.icon_block in Hi.
  destruct (truthy (Toplevel.iconphoto a)); simpl in Hi |- *.
  - destruct (Tk.iconphoto_error T false (Toplevel.iconphoto a)) as [e|].
    + eapply yields_eq.
      * eapply yields_seq; [apply yields_perform|].
        eapply yields_bind; [apply yields_call_tk_windowingsystem|].
        eapply yields_bind_raise, Hi.
      * done.
      * done.
      * done.
      * done.
    + eapply yields_eq.
      * eapply yields_seq; [apply yields_perform|].
        eapply yields_bind; [apply yields_call_tk_windowingsystem|].
        eapply yields_seq; [apply Hi|].
        apply Toplevel_steps_yields, yields_ret.
      * done.
      * simpl. by rewrite app_nil_r.
      * done.
      * done.
  - eapply yields_eq.
    + eapply yields_seq; [apply yields_perform|].
      eapply yields_bind; [apply yields_call_tk_windowingsystem|].
      eapply yields_seq; [apply yields_ret|].
      apply Toplevel_steps_yields, yields_ret.
    + done.
    + simpl. by rewrite app_nil_r.
    + done.
    + done.
Qed.

Lemma bind_cong {A B} (m : Tk.tk A) (k k' : A -> Tk.tk B) w :
  (forall a w', k a T w' = k' a T w') ->
  Tk.bind m k T w = Tk.bind m k' T w.
Proof. intros Hk. unfold Tk.bind. destruct (m T w) as [[a|e] w']; auto. Qed.

Lemma bind_ret_tt (m : Tk.tk unit) w : m T w = (m ;; Tk.ret tt) T w.
Proof. unfold Tk.bind. by destruct (m T w) as [[[]|e] w']. Qed.

Lemma Toplevel_init_in_order a w :
  Toplevel.__init__ a T w
  = Toplevel.__init__in_order Toplevel.code_order a T w.
Proof.
  unfold Toplevel.__init__, Toplevel.__init__in_order. simpl.
  repeat (apply bind_cong; intros).
  apply bind_ret_tt.
Qed.
End ToplevelConstructor.

(** ** The configuration calls commute *)

Lemma size_string_cons w h : exists c s, size_string w h = String c s.
Proof.
  unfold size_string, str_int.
  destruct (Z.to_int w) as [d|d]; simpl; [|by eexists _, _].
  destruct d; by eexists _, _.
Qed.

Lemma wm_geometry_size w h c :
  Tk.wm_geometry (size_string w h) c
  = if (0 <=? w) && (0 <=? h) then Tk.wm_set_size (Some (w, h)) c else c.
Proof.
  unfold Tk.wm_geometry. rewrite parse_size_string.
  destruct (size_string_cons w h) as (x & s & ->).
  by destruct ((0 <=? w) && (0 <=? h)).
Qed.

Lemma wm_geometry_position x y c :
  Tk.wm_geometry (position_string x y) c
  = Tk.wm_set_position (Some ((false, x), (false, y))) c.
Proof.
  unfold Tk.wm_geometry. rewrite parse_position_string. done.
Qed.

Lemma wm_run_app l1 l2 c :
  Tk.wm_run (l1 ++ l2) c = Tk.wm_run l2 (Tk.wm_run l1 c).
Proof. apply foldl_app. Qed.

Section Commute.
Local Opaque Tk.wm_geometry.


End Commute.



(** ** What the constructors issue *)

Lemma Window_returns a T w :
  returns (Window.__init__ a) T w <-> Window_aborts a T = None.
Proof.
  unfold returns.
  rewrite (yields_outcome T _ _ _ _ _ (Window_yields T Window.code_order a)).
  destruct (Window_aborts a T); split; try done.
  - by intros [? ?].
  - by exists tt.
Qed.





Lemma issued_ext {A} (m m' : Tk.tk A) T w :
  m T w = m' T w -> issued m T w = issued m' T w.
Proof. unfold issued. by intros ->. Qed.


(** ** place_window_center *)

Lemma place_window_center_yields T :
  yields Window.place_window_center T (Return tt)
    (Tk.ok [Tk.UpdateIdletasks; Tk.WinfoHeight; Tk.WinfoWidth;
            Tk.WinfoScreenheight; Tk.WinfoScreenwidth;
            Tk.Geometry
              (position_string ((Tk.screenwidth T - Tk.width T) / 2)
                               ((Tk.screenheight T - Tk.height T) / 2))])
    None None.
Proof. intros w. by rewrite assigned_none. Qed.

(** C1: [place_window_center], of [Window] and of [Toplevel] alike,
    returns after asking for the idle tasks to be flushed and for the
    four dimensions, and issuing one geometry request, with the string
    [+xpos+ypos] where [xpos = (screen width - window width) // 2] and
    [ypos = (screen height - window height) // 2]; of what the window
    manager records, only the position changes, and bindings and widgets
    stay as they were. *)
Theorem place_window_center_centres (T : Tk.toolkit) (w : Tk.world) :
  let xpos := (Tk.screenwidth T - Tk.width T) / 2 in
  let ypos := (Tk.screenheight T - Tk.height T) / 2 in
  let centres (m : Tk.tk unit) :=
    fst (run m T w) = Return tt
    /\ issued m T w
       = [Tk.UpdateIdletasks; Tk.WinfoHeight; Tk.WinfoWidth;
          Tk.WinfoScreenheight; Tk.WinfoScreenwidth;
          Tk.Geometry (position_string xpos ypos)]
    /\ calls Tk.is_geometry (issued m T w)
       = [Tk.Geometry (position_string xpos ypos)]
    /\ Tk.wm (snd (run m T w))
       = Tk.wm_set_position (Some ((false, xpos), (false, ypos))) (Tk.wm w)
    /\ Tk.bindings (snd (run m T w)) = Tk.bindings w
    /\ Tk.widgets (snd (run m T w)) = Tk.widgets w in
  centres Window.place_window_center /\ centres Toplevel.place_window_center.
Proof.
  intros xpos ypos centres.
  assert (centres Window.place_window_center) as H; [|by split].
  pose proof (place_window_center_yields T) as Hy.
  unfold centres, run. repeat split.
  - by rewrite (yields_issued T _ _ _ _ _ Hy), issued_ok.
  - by rewrite (yields_issued T _ _ _ _ _ Hy), issued_ok.
  - rewrite (yields_wm T _ _ _ _ _ Hy), accepted_ok.
    apply wm_geometry_position.
Qed.

(** A 200 by 200 window on a 1920 by 1080 screen, and a 2001 by 301 window
    on an 800 by 300 one: [//] rounds towards minus infinity. *)
Example place_window_center_on_large_screen :
  issued Window.place_window_center (toolkit0 "x11") world0
  = [Tk.UpdateIdletasks; Tk.WinfoHeight; Tk.WinfoWidth;
     Tk.WinfoScreenheight; Tk.WinfoScreenwidth; Tk.Geometry "+860+440"].
Proof. reflexivity. Qed.

Example place_window_center_on_small_screen :
  issued Toplevel.place_window_center
    {| Tk.windowingsystem := "win32";
       Tk.default_icon := Return (PhotoImage "pyimage1");
       Tk.iconphoto_error := fun _ _ => None;
       Tk.height := 301; Tk.width := 2001;
       Tk.screenheight := 300; Tk.screenwidth := 800;
       Tk.configure_error := fun _ _ _ => None |}
    world0
  = [Tk.UpdateIdletasks; Tk.WinfoHeight; Tk.WinfoWidth;
     Tk.WinfoScreenheight; Tk.WinfoScreenwidth; Tk.Geometry "+-601+-1"].
Proof. reflexivity. Qed.

(** C2: [position_center] is [place_window_center] under another name, in
    [Window] and in [Toplevel]: run from any world, the two give the same
    outcome and leave the same world. *)
Theorem position_center_is_place_window_center (T : Tk.toolkit) (w : Tk.world) :
  run Window.position_center T w = run Window.place_window_center T w
  /\ run Toplevel.position_center T w = run Toplevel.place_window_center T w.
Proof. split; reflexivity. Qed.

(** ** The order of the configuration calls *)









(** ** The calls of one kind *)

Lemma filter_none (p : Tk.request -> bool) l :
  Forall (fun r => p r = true -> False) l -> List.filter p l = [].
Proof.
  induction 1 as [|r l Hr _ IH]; simpl; [done|].
  destruct (p r); [by destruct Hr|done].
Qed.



Section WindowCalls.
Context (p : Tk.request -> bool) (X : Window.step -> bool)
        (a : Window.args) (winsys : string).
Hypothesis HX : forall s,
  List.filter p (Window.step_requests a winsys s)
  = if X s then Window.step_requests a winsys s else [].

Lemma Window_configuration_calls order :
  List.filter p (Window.configuration_requests order a winsys)
  = Window.configuration_requests (List.filter X order) a winsys.
Proof.
  unfold Window.configuration_requests.
  induction order as [|s order IH]; simpl; [done|].
  rewrite List.filter_app, IH, HX. by destruct (X s).
Qed.
End WindowCalls.


Section ToplevelCalls.
Context (p : Tk.request -> bool) (X : Toplevel.step -> bool)
        (a : Toplevel.args) (winsys : string).
Hypothesis HX : forall s,
  List.filter p (Toplevel.step_requests a winsys s)
  = if X s then Toplevel.step_requests a winsys s else [].

Lemma Toplevel_configuration_calls order :
  List.filter p (Toplevel.configuration_requests order a winsys)
  = Toplevel.configuration_requests (List.filter X order) a winsys.
Proof.
  unfold Toplevel.configuration_requests.
  induction order as [|s order IH]; simpl; [done|].
  rewrite List.filter_app, IH, HX. by destruct (X s).
Qed.
End ToplevelCalls.







(** ** The guards of the constructors *)




(** ** The icon *)

Lemma Window_icon_try_outcome a T w :
  fst (Window.__init__icon_try a T w)
  = match snd (Tk.icon_block true (Window.iconphoto a) T) with
    | Some e => Raise e
    | None => Return tt
    end.
Proof. apply (yields_outcome T _ _ _ _ _ (icon_block_yields T true _)). Qed.

Lemma Window_icon_try_issued a T w :
  issued (Window.__init__icon_try a) T w
  = map fst (fst (fst (Tk.icon_block true (Window.iconphoto a) T))).
Proof. apply (yields_issued T _ _ _ _ _ (icon_block_yields T true _)). Qed.




(** ** The disabled-state cursor *)

Ltac callback_cases :=
  unfold run, dispatch, Window._disabled_state_cursor, Tk.try_except,
    Window._disabled_state_cursor_try, Tk.bind, Tk.nametowidget, Tk.cget,
    Tk.setitem, Tk.attempt, Tk.ret, Tk.pass;
  simpl; repeat case_match; simplify_eq/=.

Lemma disabled_state_cursor_returns T w ev :
  fst (run (Window._disabled_state_cursor ev) T w) = Return tt.
Proof. callback_cases; done. Qed.

Lemma disabled_state_cursor_failure_undone T w ev e :
  fst (run (Window._disabled_state_cursor_try ev) T w) = Raise e ->
  Tk.widgets (snd (run (Window._disabled_state_cursor ev) T w)) = Tk.widgets w
  /\ Tk.wm (snd (run (Window._disabled_state_cursor ev) T w)) = Tk.wm w.
Proof. callback_cases; done. Qed.

(** C6: [_disabled_state_cursor] returns whatever happens: for every
    event, in every world and with every toolkit, the callback returns
    normally; and when the body of its [try] raises (the widget is not
    found, it has no state or no cursor option, or the toolkit refuses
    the new cursor) the widgets are left as they were, and so is the
    window. *)
Theorem disabled_state_cursor_never_raises
    (T : Tk.toolkit) (w : Tk.world) (ev : Window.event) :
  fst (run (Window._disabled_state_cursor ev) T w) = Return tt
  /\ forall e,
       fst (run (Window._disabled_state_cursor_try ev) T w) = Raise e ->
       Tk.widgets (snd (run (Window._disabled_state_cursor ev) T w))
       = Tk.widgets w
       /\ Tk.wm (snd (run (Window._disabled_state_cursor ev) T w)) = Tk.wm w.
Proof.
  split.
  - apply disabled_state_cursor_returns.
  - intros e. apply disabled_state_cursor_failure_undone.
Qed.






Section WidgetRuns.
Context (T : Tk.toolkit) (w : Tk.world) (n : string)
        (options : gmap string (option string)).
Hypothesis Hn : Tk.widgets w !! n = Some options.

Lemma nametowidget_run :
  Tk.nametowidget n T w = (Return n, Tk.log (Tk.Nametowidget n) w).
Proof. unfold Tk.nametowidget. by rewrite Hn. Qed.

Lemma cget_run k v :
  options !! k = Some v ->
  Tk.cget n k T w = (Return v, Tk.log (Tk.Cget n k) w).
Proof. intros Hk. unfold Tk.cget. rewrite Hn. simpl. by rewrite Hk. Qed.

Lemma setitem_run k v0 v :
  options !! k = Some v0 ->
  Tk.configure_error T n k v = None ->
  Tk.setitem n k v T w
  = (Return tt, Tk.accept (Tk.SetItem n k v) (Tk.log (Tk.SetItem n k v) w)).
Proof.
  intros Hk Hok. unfold Tk.setitem, Tk.attempt.
  rewrite Hn. simpl. by rewrite Hk, Hok.
Qed.
End WidgetRuns.


(** An event for a widget that does not exist: the lookup raises
    [KeyError], the callback returns all the same. *)
Lemma disabled_state_cursor_never_raises_witness :
  let ev := {| Window.widget := ".!missing" |} in
  let w := world_with_entry (Some "disabled") (Some "xterm") in
  fst (run (Window._disabled_state_cursor_try ev) (toolkit0 "x11") w)
  = Raise KeyError
  /\ fst (run (Window._disabled_state_cursor ev) (toolkit0 "x11") w)
     = Return tt
  /\ Tk.widgets (snd (run (Window._disabled_state_cursor ev)
                        (toolkit0 "x11") w))
     = Tk.widgets w.
Proof.
  intros ev w.
  destruct (disabled_state_cursor_never_raises (toolkit0 "x11") w ev)
    as [Hret Hraise].
  split; [reflexivity|]. split; [exact Hret|].
  apply (Hraise KeyError). reflexivity.
Defined.


(** ** Platform attributes *)




(** ** Geometry strings *)

Example size_string_1000 : size_string 1000 1000 = "1000x1000".
Proof. reflexivity. Qed.

Example position_string_centre : position_string 860 440 = "+860+440".
Proof. reflexivity. Qed.

Example position_string_negative : position_string (-5) 0 = "+-5+0".
Proof. reflexivity. Qed.



(** ** The icon of a Toplevel *)

Lemma Toplevel_issued_any a T w :
  issued (Toplevel.__init__ a) T w
  = [Tk.ToplevelInit; Tk.WindowingSystem]
    ++ map fst (Toplevel_icon_entries a T)
    ++ match Toplevel_aborts a T with
       | Some _ => []
       | None =>
           Toplevel.configuration_requests Toplevel.code_order a
             (Tk.windowingsystem T)
       end.
Proof.
  rewrite (issued_ext _ _ _ _ (Toplevel_init_in_order T a w)).
  rewrite (yields_issued T _ _ _ _ _ (Toplevel_yields T _ a)).
  unfold Toplevel_entries. rewrite !map_app, issued_ok.
  destruct (Toplevel_aborts a T); [done|]. by rewrite issued_ok.
Qed.

Lemma Window_issued_any a T w :
  issued (Window.__init__ a) T w
  = Window.prologue_requests a
    ++ map fst (fst (fst (Tk.icon_block true (Window.iconphoto a) T)))
    ++ match Window_aborts a T with
       | Some _ => []
       | None =>
           Window.configuration_requests Window.code_order a
             (Tk.windowingsystem T)
           ++ Window.epilogue_requests a
       end.
Proof.
  change (Window.__init__ a)
    with (Window.__init__in_order Window.code_order a).
  rewrite (yields_issued T _ _ _ _ _ (Window_yields T _ a)).
  unfold Window_entries. rewrite !map_app, issued_ok.
  destruct (Window_aborts a T); [done|]. by rewrite !map_app, !issued_ok.
Qed.





(** * Further facts *)

(** ** The record a constructor leaves *)

Lemma Window_configuration_app order1 order2 a winsys :
  Window.configuration_requests (order1 ++ order2) a winsys
  = Window.configuration_requests order1 a winsys
    ++ Window.configuration_requests order2 a winsys.
Proof.
  unfold Window.configuration_requests. by rewrite map_app, concat_app.
Qed.

Lemma Toplevel_configuration_app order1 order2 a winsys :
  Toplevel.configuration_requests (order1 ++ order2) a winsys
  = Toplevel.configuration_requests order1 a winsys
    ++ Toplevel.configuration_requests order2 a winsys.
Proof.
  unfold Toplevel.configuration_requests. by rewrite map_app, concat_app.
Qed.

Section Configured.
Local Opaque Tk.wm_geometry.

Lemma Window_configuration_effect a winsys c :
  Tk.wm_run (Window.configuration_requests Window.code_order a winsys) c
  = Window_configured a winsys c.
Proof.
  unfold Window.configuration_requests, Window_configured. simpl.
  guards; simpl; rewrite ?wm_geometry_size, ?wm_geometry_position;
    repeat case_match; reflexivity.
Qed.

Lemma Toplevel_basics_effect a winsys c :
  Tk.wm_run
    (Toplevel.configuration_requests
       [Toplevel.Title; Toplevel.Size; Toplevel.Position; Toplevel.Minsize;
        Toplevel.Maxsize; Toplevel.Resizable; Toplevel.Transient;
        Toplevel.Overrideredirect] a winsys) c
  = Toplevel_basics a c.
Proof.
  unfold Toplevel.configuration_requests, Toplevel_basics. simpl.
  guards; simpl; rewrite ?wm_geometry_size, ?wm_geometry_position;
    repeat case_match; reflexivity.
Qed.

Lemma Toplevel_configuration_effect a winsys c :
  Tk.wm_run (Toplevel.configuration_requests Toplevel.code_order a winsys) c
  = Toplevel_configured a winsys c.
Proof.
  change Toplevel.code_order
    with ([Toplevel.Title; Toplevel.Size; Toplevel.Position;
           Toplevel.Minsize; Toplevel.Maxsize; Toplevel.Resizable;
           Toplevel.Transient; Toplevel.Overrideredirect]
          ++ [Toplevel.Windowtype; Toplevel.Topmost; Toplevel.Toolwindow;
              Toplevel.Alpha]).
  rewrite Toplevel_configuration_app, wm_run_app, Toplevel_basics_effect.
  unfold Toplevel.configuration_requests, Toplevel_configured,
    Toplevel_attributes.
  simpl.
  destruct (String.eqb winsys "x11"), (String.eqb winsys "win32");
    guards; simpl; reflexivity.
Qed.
End Configured.

Lemma wm_run_inert l c :
  Forall (fun r => forall c, Tk.wm_apply r c = c) l -> Tk.wm_run l c = c.
Proof.
  intros Hl. revert c.
  induction Hl as [|r l Hr _ IH]; intros c; simpl; [done|].
  by rewrite Hr, IH.
Qed.

Lemma Window_prologue_wm a c :
  Tk.wm_run (Window.prologue_requests a) c = c.
Proof.
  apply wm_run_inert. unfold Window.prologue_requests.
  repeat case_match; simpl;
    repeat first [apply List.Forall_nil | apply List.Forall_cons; [done|]].
Qed.

Lemma Window_epilogue_wm a c :
  Tk.wm_run (Window.epilogue_requests a) c = c.
Proof. done. Qed.

Lemma icon_block_wm default image T c :
  Tk.wm_run (Tk.accepted (fst (fst (Tk.icon_block default image T)))) c
  = icon_recorded default image T c.
Proof.
  unfold icon_recorded, Tk.icon_block, Tk.accepted.
  repeat case_match; simplify_eq/=; try done;
    repeat case_bool_decide; simplify_eq/=; try done; congruence.
Qed.

Lemma Window_wm a T w :
  Tk.wm (snd (Window.__init__ a T w))
  = match Window_aborts a T with
    | Some _ => icon_recorded true (Window.iconphoto a) T (Tk.wm w)
    | None =>
        Window_configured a (Tk.windowingsystem T)
          (icon_recorded true (Window.iconphoto a) T (Tk.wm w))
    end.
Proof.
  change (Window.__init__ a)
    with (Window.__init__in_order Window.code_order a).
  rewrite (yields_wm T _ _ _ _ _ (Window_yields T _ a)).
  unfold Window_entries.
  rewrite !accepted_app, !wm_run_app, accepted_ok, Window_prologue_wm.
  rewrite icon_block_wm.
  destruct (Window_aborts a T); [done|].
  rewrite accepted_app, !accepted_ok, wm_run_app.
  by rewrite Window_configuration_effect, Window_epilogue_wm.
Qed.

Lemma Toplevel_wm a T w :
  Tk.wm (snd (Toplevel.__init__ a T w))
  = match Toplevel_aborts a T with
    | Some _ => Tk.wm w
    | None =>
        Toplevel_configured a (Tk.windowingsystem T)
          (if truthy (Toplevel.iconphoto a)
           then Tk.wm_set_iconphoto (Some (false, Toplevel.iconphoto a))
                  (Tk.wm w)
           else Tk.wm w)
    end.
Proof.
  rewrite Toplevel_init_in_order.
  rewrite (yields_wm T _ _ _ _ _ (Toplevel_yields T _ a)).
  unfold Toplevel_entries, Toplevel_icon_entries, Toplevel_aborts.
  rewrite !accepted_app, !wm_run_app, accepted_ok.
  destruct (truthy (Toplevel.iconphoto a)).
  - destruct (Tk.iconphoto_error T false (Toplevel.iconphoto a)); [done|].
    by rewrite accepted_ok, Toplevel_configuration_effect.
  - by rewrite accepted_ok, Toplevel_configuration_effect.
Qed.

(** ** Where the centre is *)

Lemma place_window_center_wm T w :
  Tk.wm (snd (Window.place_window_center T w))
  = Tk.wm_set_position
      (Some ((false, (Tk.screenwidth T - Tk.width T) / 2),
             (false, (Tk.screenheight T - Tk.height T) / 2)))
      (Tk.wm w).
Proof.
  rewrite (yields_wm T _ _ _ _ _ (place_window_center_yields T)).
  rewrite accepted_ok. apply wm_geometry_position.
Qed.

Lemma half_margins d : 0 <= d - d / 2 - d / 2 <= 1.
Proof.
  pose proof (Z.div_mod d 2 ltac:(lia)).
  pose proof (Z.mod_pos_bound d 2 ltac:(lia)). lia.
Qed.

Lemma half_sign d : 0 <= d / 2 <-> 0 <= d.
Proof.
  pose proof (Z.div_mod d 2 ltac:(lia)).
  pose proof (Z.mod_pos_bound d 2 ltac:(lia)). lia.
Qed.

(** X1: the window that [place_window_center] has placed, of [Window]
    and of [Toplevel] alike, is centred as well as whole pixels allow:
    the margin it leaves on the right exceeds the one on the left by
    nothing or by one pixel, and so does the bottom margin the top one;
    and the offset is negative exactly when the window is larger than
    the screen. *)
Theorem centre_margins_differ_by_at_most_one (T : Tk.toolkit) (w : Tk.world) :
  let centred (m : Tk.tk unit) :=
    exists xpos ypos,
      Tk.wm_position (Tk.wm (snd (run m T w)))
      = Some ((false, xpos), (false, ypos))
      /\ 0 <= (Tk.screenwidth T - Tk.width T - xpos) - xpos <= 1
      /\ 0 <= (Tk.screenheight T - Tk.height T - ypos) - ypos <= 1
      /\ (0 <= xpos <-> Tk.width T <= Tk.screenwidth T)
      /\ (0 <= ypos <-> Tk.height T <= Tk.screenheight T) in
  centred Window.place_window_center /\ centred Toplevel.place_window_center.
Proof.
  intros centred.
  assert (centred Window.place_window_center) as H; [|by split].
  exists ((Tk.screenwidth T - Tk.width T) / 2),
         ((Tk.screenheight T - Tk.height T) / 2).
  unfold run. rewrite place_window_center_wm.
  split; [done|].
  pose proof (half_margins (Tk.screenwidth T - Tk.width T)).
  pose proof (half_margins (Tk.screenheight T - Tk.height T)).
  pose proof (half_sign (Tk.screenwidth T - Tk.width T)).
  pose proof (half_sign (Tk.screenheight T - Tk.height T)).
  repeat split; lia.
Qed.

(** X2: a window no larger than the screen lies wholly on the screen
    once [place_window_center] has placed it: its offsets are not
    negative, and offset plus extent stays within the screen, in both
    directions. *)
Theorem centred_window_is_on_screen (T : Tk.toolkit) (w : Tk.world) :
  0 <= Tk.width T <= Tk.screenwidth T ->
  0 <= Tk.height T <= Tk.screenheight T ->
  let on_screen (m : Tk.tk unit) :=
    exists xpos ypos,
      Tk.wm_position (Tk.wm (snd (run m T w)))
      = Some ((false, xpos), (false, ypos))
      /\ 0 <= xpos /\ xpos + Tk.width T <= Tk.screenwidth T
      /\ 0 <= ypos /\ ypos + Tk.height T <= Tk.screenheight T in
  on_screen Window.place_window_center
  /\ on_screen Toplevel.place_window_center.
Proof.
  intros Hw Hh on_screen.
  assert (on_screen Window.place_window_center) as H; [|by split].
  exists ((Tk.screenwidth T - Tk.width T) / 2),
         ((Tk.screenheight T - Tk.height T) / 2).
  unfold run. rewrite place_window_center_wm.
  split; [done|].
  pose proof (half_margins (Tk.screenwidth T - Tk.width T)).
  pose proof (half_margins (Tk.screenheight T - Tk.height T)).
  pose proof (half_sign (Tk.screenwidth T - Tk.width T)).
  pose proof (half_sign (Tk.screenheight T - Tk.height T)).
  repeat split; lia.
Qed.

Lemma centred_window_is_on_screen_witness :
  0 <= Tk.width (toolkit0 "x11") <= Tk.screenwidth (toolkit0 "x11")
  /\ 0 <= Tk.height (toolkit0 "x11") <= Tk.screenheight (toolkit0 "x11")
  /\ exists xpos ypos,
       Tk.wm_position
         (Tk.wm (snd (run Window.place_window_center (toolkit0 "x11") world0)))
       = Some ((false, xpos), (false, ypos))
       /\ 0 <= xpos /\ xpos + 200 <= 1920
       /\ 0 <= ypos /\ ypos + 200 <= 1080.
Proof.
  assert (0 <= Tk.width (toolkit0 "x11") <= Tk.screenwidth (toolkit0 "x11"))
    as Hw by (simpl; lia).
  assert (0 <= Tk.height (toolkit0 "x11") <= Tk.screenheight (toolkit0 "x11"))
    as Hh by (simpl; lia).
  split; [exact Hw|]. split; [exact Hh|].
  exact (proj1 (centred_window_is_on_screen (toolkit0 "x11") world0 Hw Hh)).
Defined.

Lemma then_returns {A} (m : Tk.tk unit) (k : Tk.tk A) T w :
  returns m T w -> (m ;; k) T w = k T (snd (m T w)).
Proof.
  intros [[] Hr]. unfold Tk.bind.
  destruct (m T w) as [[[]|e] w']; simpl in *; done.
Qed.

(** X3: centring twice is centring once: a second
    [place_window_center] right after the first returns and leaves the
    window manager's record, the bindings, the widgets and the
    attributes of the object as the first left them. *)
Theorem place_window_center_twice (T : Tk.toolkit) (w : Tk.world) :
  let same (m : Tk.tk unit) :=
    let once := snd (run m T w) in
    let twice := snd (run (m ;; m) T w) in
    fst (run (m ;; m) T w) = Return tt
    /\ Tk.wm twice = Tk.wm once
    /\ Tk.bindings twice = Tk.bindings once
    /\ Tk.widgets twice = Tk.widgets once
    /\ Tk.self_icon twice = Tk.self_icon once
    /\ Tk.self_style twice = Tk.self_style once in
  same Window.place_window_center /\ same Toplevel.place_window_center.
Proof.
  intros same.
  assert (same Window.place_window_center) as H; [|by split].
  unfold same, run.
  rewrite then_returns by (by exists tt).
  split; [done|]. split; [|done].
  by rewrite !place_window_center_wm.
Qed.

(** ** What a constructor records *)









(** ** What a run leaves alone *)

Lemma widgets_emit l w :
  List.filter is_setitem (map fst l) = [] ->
  Tk.widgets (Tk.emit l w) = Tk.widgets w.
Proof.
  revert w. induction l as [|[r b] l IH]; intros w; simpl; [done|].
  destruct (is_setitem r) eqn:Hr; [done|]. intros Hl.
  rewrite IH by done. by destruct r, b.
Qed.

Lemma bindings_emit_none l w :
  List.filter is_bind_class (map fst l) = [] ->
  Tk.bindings (Tk.emit l w) = Tk.bindings w.
Proof.
  revert w. induction l as [|[r b] l IH]; intros w; simpl; [done|].
  destruct (is_bind_class r) eqn:Hr; [done|]. intros Hl.
  rewrite IH by done. by destruct r, b.
Qed.

Lemma self_style_emit l w : Tk.self_style (Tk.emit l w) = Tk.self_style w.
Proof.
  revert w. induction l as [|[r b] l IH]; intros w; simpl; [done|].
  rewrite IH. by destruct b.
Qed.

Lemma self_icon_emit l w : Tk.self_icon (Tk.emit l w) = Tk.self_icon w.
Proof.
  revert w. induction l as [|[r b] l IH]; intros w; simpl; [done|].
  rewrite IH. by destruct b.
Qed.

Section YieldsFrame.
Context {A : Type} (T : Tk.toolkit) (m : Tk.tk A) (o : outcome A)
        (l : list Tk.entry) (i : option value) (s : option string).
Hypothesis Hm : yields m T o l i s.

Lemma yields_widgets w :
  List.filter is_setitem (map fst l) = [] ->
  Tk.widgets (snd (m T w)) = Tk.widgets w.
Proof. intros Hl. rewrite Hm. simpl. by apply widgets_emit. Qed.

Lemma yields_no_bindings w :
  List.filter is_bind_class (map fst l) = [] ->
  Tk.bindings (snd (m T w)) = Tk.bindings w.
Proof. intros Hl. rewrite Hm. simpl. by apply bindings_emit_none. Qed.

Lemma yields_self_style w :
  Tk.self_style (snd (m T w)) = from_option Some (Tk.self_style w) s.
Proof. rewrite Hm. simpl. by rewrite self_style_emit. Qed.

Lemma yields_self_icon w :
  Tk.self_icon (snd (m T w)) = from_option Some (Tk.self_icon w) i.
Proof. rewrite Hm. simpl. by rewrite self_icon_emit. Qed.
End YieldsFrame.

Lemma icon_block_kind (p : Tk.request -> bool) default image T :
  (forall r, p r = true -> Tk.is_iconphoto r || Tk.is_default_icon r = false) ->
  List.filter p (map fst (fst (fst (Tk.icon_block default image T)))) = [].
Proof.
  intros Hp. apply filter_none.
  unfold Tk.icon_block.
  repeat case_match; simpl;
    repeat first [apply List.Forall_nil | apply List.Forall_cons];
    intros Hr; by apply Hp in Hr.
Qed.

Lemma Window_prologue_kind (p : Tk.request -> bool) a :
  p Tk.TkInit = false -> p Tk.WindowingSystem = false ->
  (forall root scaling, p (Tk.EnableHighDpiAwareness root scaling) = false) ->
  List.filter p (Window.prologue_requests a) = [].
Proof.
  intros H1 H2 H3. unfold Window.prologue_requests.
  repeat case_match; simpl; by rewrite ?H1, ?H2, ?H3.
Qed.

Lemma Window_entries_no_setitem order a T :
  List.filter is_setitem (map fst (Window_entries order a T)) = [].
Proof.
  unfold Window_entries.
  rewrite !map_app, !List.filter_app, !issued_ok.
  rewrite icon_block_kind by (by intros []).
  rewrite Window_prologue_kind by done.
  destruct (Window_aborts a T); [done|].
  rewrite !map_app, !List.filter_app, !issued_ok.
  rewrite (Window_configuration_calls is_setitem (fun _ => false))
    by by_step.
  by induction order.
Qed.

Lemma Toplevel_entries_kind (p : Tk.request -> bool) order a T :
  p Tk.ToplevelInit = false -> p Tk.WindowingSystem = false ->
  (forall default image, p (Tk.Iconphoto default image) = false) ->
  (forall s,
     List.filter p (Toplevel.step_requests a (Tk.windowingsystem T) s) = []) ->
  List.filter p (map fst (Toplevel_entries order a T)) = [].
Proof.
  intros H1 H2 H3 H4. unfold Toplevel_entries, Toplevel_icon_entries.
  rewrite !map_app, !List.filter_app. simpl. rewrite H1, H2. simpl.
  replace (List.filter p
             (map fst
                (if truthy (Toplevel.iconphoto a)
                 then [(Tk.Iconphoto false (Toplevel.iconphoto a),
                        bool_decide
                          (Tk.iconphoto_error T false (Toplevel.iconphoto a)
                           = None))]
                 else [])))
    with (@nil Tk.request)
    by (destruct (truthy (Toplevel.iconphoto a)); simpl; by rewrite ?H3).
  destruct (Toplevel_aborts a T); [done|]. rewrite issued_ok.
  rewrite (Toplevel_configuration_calls p (fun _ => false))
    by (intros s; apply H4).
  by induction order.
Qed.

Lemma Toplevel_init_yields T a :
  yields (Toplevel.__init__ a) T
    (match Toplevel_aborts a T with Some e => Raise e | None => Return tt end)
    (Toplevel_entries Toplevel.code_order a T)
    (if truthy (Toplevel.iconphoto a)
     then Some (Toplevel.iconphoto a) else None)
    None.
Proof.
  intros w. rewrite Toplevel_init_in_order. apply Toplevel_yields.
Qed.

(** X8: neither constructor touches a widget; and the constructor of
    [Toplevel] does none of what that of [Window] does for the
    application as a whole: it binds no class, assigns no [_style] and
    never asks for high-DPI awareness.  This holds whether the
    constructor returns or raises. *)
Theorem toplevel_does_none_of_the_root_windows_extras
    (T : Tk.toolkit) (w : Tk.world)
    (a : Window.args) (b : Toplevel.args) :
  Tk.widgets (snd (run (Window.__init__ a) T w)) = Tk.widgets w
  /\ Tk.widgets (snd (run (Toplevel.__init__ b) T w)) = Tk.widgets w
  /\ Tk.bindings (snd (run (Toplevel.__init__ b) T w)) = Tk.bindings w
  /\ Tk.self_style (snd (run (Toplevel.__init__ b) T w)) = Tk.self_style w
  /\ calls is_high_dpi (issued (Toplevel.__init__ b) T w) = [].
Proof.
  unfold run, calls.
  pose proof (Toplevel_init_yields T b) as Hb.
  split.
  { change (Window.__init__ a)
      with (Window.__init__in_order Window.code_order a).
    apply (yields_widgets T _ _ _ _ _ (Window_yields T _ a)).
    apply Window_entries_no_setitem. }
  split.
  { apply (yields_widgets T _ _ _ _ _ Hb).
    apply Toplevel_entries_kind; try done. by_step. }
  split.
  { apply (yields_no_bindings T _ _ _ _ _ Hb).
    apply Toplevel_entries_kind; try done. by_step. }
  split.
  { by rewrite (yields_self_style T _ _ _ _ _ Hb). }
  rewrite (yields_issued T _ _ _ _ _ Hb).
  apply Toplevel_entries_kind; try done. by_step.
Qed.

(** ** When the icon fails *)

(** X9: the icon request of [Toplevel] is in no [try]: when the
    toolkit refuses the supplied icon photo, the exception leaves the
    constructor, whatever it is.  By then [_icon] holds the photo, and
    nothing has been configured: no request follows the refused one, and
    the window manager's record is as before. *)
Theorem toplevel_icon_failure_leaves_constructor
    (T : Tk.toolkit) (w : Tk.world) (a : Toplevel.args) (e : exn) :
  truthy (Toplevel.iconphoto a) = true ->
  Tk.iconphoto_error T false (Toplevel.iconphoto a) = Some e ->
  fst (run (Toplevel.__init__ a) T w) = Raise e
  /\ issued (Toplevel.__init__ a) T w
     = [Tk.ToplevelInit; Tk.WindowingSystem;
        Tk.Iconphoto false (Toplevel.iconphoto a)]
  /\ Tk.wm (snd (run (Toplevel.__init__ a) T w)) = Tk.wm w
  /\ Tk.self_icon (snd (run (Toplevel.__init__ a) T w))
     = Some (Toplevel.iconphoto a).
Proof.
  intros Ht He. unfold run.
  pose proof (Toplevel_init_yields T a) as Hy.
  assert (Toplevel_aborts a T = Some e) as Ha
    by (unfold Toplevel_aborts; by rewrite Ht).
  split.
  { rewrite (yields_outcome T _ _ _ _ _ Hy). by rewrite Ha. }
  split.
  { rewrite Toplevel_issued_any, Ha. unfold Toplevel_icon_entries.
    by rewrite Ht. }
  split.
  { by rewrite Toplevel_wm, Ha. }
  rewrite (yields_self_icon T _ _ _ _ _ Hy). by rewrite Ht.
Qed.

Lemma toplevel_icon_failure_leaves_constructor_witness :
  let b :=
    {| Toplevel.title := "tools"; Toplevel.iconphoto := PhotoImage "pyimage2";
       Toplevel.size := Some (300, 200); Toplevel.position := None;
       Toplevel.minsize := None; Toplevel.maxsize := None;
       Toplevel.resizable := None; Toplevel.transient := None;
       Toplevel.overrideredirect := Bool false;
       Toplevel.windowtype := None; Toplevel.topmost := Bool false;
       Toplevel.toolwindow := Bool false;
       Toplevel.alpha := Some (Float 1 0) |} in
  truthy (Toplevel.iconphoto b) = true
  /\ Tk.iconphoto_error toolkit_refusing_icons false (Toplevel.iconphoto b)
     = Some TclError
  /\ fst (run (Toplevel.__init__ b) toolkit_refusing_icons world0)
     = Raise TclError
  /\ issued (Toplevel.__init__ b) toolkit_refusing_icons world0
     = [Tk.ToplevelInit; Tk.WindowingSystem;
        Tk.Iconphoto false (PhotoImage "pyimage2")]
  /\ Tk.wm (snd (run (Toplevel.__init__ b) toolkit_refusing_icons world0))
     = wm0
  /\ Tk.self_icon
       (snd (run (Toplevel.__init__ b) toolkit_refusing_icons world0))
     = Some (PhotoImage "pyimage2").
Proof.
  intros b.
  assert (truthy (Toplevel.iconphoto b) = true) as Ht by reflexivity.
  assert (Tk.iconphoto_error toolkit_refusing_icons false
            (Toplevel.iconphoto b) = Some TclError) as He by reflexivity.
  split; [exact Ht|]. split; [exact He|].
  exact (toplevel_icon_failure_leaves_constructor
           toolkit_refusing_icons world0 b TclError Ht He).
Defined.

(** X10: in [Window], an exception of the icon block that is not a
    [TclError] leaves the constructor: nothing is issued after the
    requests of the icon block, the window manager's record and the
    bindings are as before, and [_style] is not assigned. *)
Theorem icon_failure_other_than_TclError_leaves_constructor
    (T : Tk.toolkit) (w : Tk.world) (a : Window.args) (e : exn) :
  fst (run (Window.__init__icon_try a) T w) = Raise e ->
  is_TclError e = false ->
  let after := snd (run (Window.__init__ a) T w) in
  fst (run (Window.__init__ a) T w) = Raise e
  /\ issued (Window.__init__ a) T w
     = Window.prologue_requests a ++ issued (Window.__init__icon_try a) T w
  /\ Tk.wm after = Tk.wm w
  /\ Tk.bindings after = Tk.bindings w
  /\ Tk.self_style after = Tk.self_style w.
Proof.
  intros He Hne after. subst after. revert He.
  unfold run. rewrite Window_icon_try_outcome. intros He.
  assert (snd (Tk.icon_block true (Window.iconphoto a) T) = Some e) as Hb.
  { destruct (snd (Tk.icon_block true (Window.iconphoto a) T)); [|done].
    by injection He as ->. }
  assert (Window_aborts a T = Some e) as Ha.
  { unfold Window_aborts.
    destruct (Tk.icon_block true (Window.iconphoto a) T) as [[li i] o].
    simpl in Hb. subst o. by rewrite Hne. }
  pose proof (Window_yields T Window.code_order a) as Hy.
  change (Window.__init__in_order Window.code_order a)
    with (Window.__init__ a) in Hy.
  split.
  { rewrite (yields_outcome T _ _ _ _ _ Hy). by rewrite Ha. }
  split.
  { rewrite Window_issued_any, Ha, Window_icon_try_issued.
    by rewrite app_nil_r. }
  split.
  { rewrite Window_wm, Ha. unfold icon_recorded.
    revert Hb. unfold Tk.icon_block.
    repeat case_match; simplify_eq/=; try done; congruence. }
  split.
  { apply (yields_no_bindings T _ _ _ _ _ Hy).
    unfold Window_entries. rewrite Ha, app_nil_r.
    rewrite map_app, List.filter_app, issued_ok.
    rewrite Window_prologue_kind by done.
    by rewrite icon_block_kind by (by intros []). }
  rewrite (yields_self_style T _ _ _ _ _ Hy). by rewrite Ha.
Qed.

Lemma icon_failure_other_than_TclError_leaves_constructor_witness :
  fst (run (Window.__init__icon_try Window.defaults)
           toolkit_without_default_root world0) = Raise RuntimeError
  /\ is_TclError RuntimeError = false
  /\ fst (run (Window.__init__ Window.defaults)
              toolkit_without_default_root world0) = Raise RuntimeError
  /\ issued (Window.__init__ Window.defaults)
            toolkit_without_default_root world0
     = Window.prologue_requests Window.defaults
       ++ issued (Window.__init__icon_try Window.defaults)
            toolkit_without_default_root world0
  /\ Tk.wm (snd (run (Window.__init__ Window.defaults)
                     toolkit_without_default_root world0)) = wm0
  /\ Tk.bindings (snd (run (Window.__init__ Window.defaults)
                           toolkit_without_default_root world0)) = []
  /\ Tk.self_style (snd (run (Window.__init__ Window.defaults)
                             toolkit_without_default_root world0)) = None.
Proof.
  assert (fst (run (Window.__init__icon_try Window.defaults)
                   toolkit_without_default_root world0) = Raise RuntimeError)
    as He by reflexivity.
  assert (is_TclError RuntimeError = false) as Hne by reflexivity.
  split; [exact He|]. split; [exact Hne|].
  exact (icon_failure_other_than_TclError_leaves_constructor
           toolkit_without_default_root world0 Window.defaults RuntimeError
           He Hne).
Defined.

(** ** The rest of the constructor of [Window] *)


(** X12: [_icon] is assigned before the icon request is made, so it
    holds the image (the supplied one when truthy, else the default)
    also when the toolkit refuses it; the window manager records the
    image, as the default for later windows, only when it accepts.  When
    the default image cannot be created, neither changes. *)
Theorem window_icon_is_kept_and_recorded
    (T : Tk.toolkit) (w : Tk.world) (a : Window.args) :
  let after := snd (run (Window.__init__ a) T w) in
  match (if truthy (Window.iconphoto a) then Return (Window.iconphoto a)
         else Tk.default_icon T) with
  | Return image =>
      Tk.self_icon after = Some image
      /\ Tk.wm_iconphoto (Tk.wm after)
         = match Tk.iconphoto_error T true image with
           | None => Some (true, image)
           | Some _ => Tk.wm_iconphoto (Tk.wm w)
           end
  | Raise _ =>
      Tk.self_icon after = Tk.self_icon w
      /\ Tk.wm_iconphoto (Tk.wm after) = Tk.wm_iconphoto (Tk.wm w)
  end.
Proof.
  intros after. subst after. unfold run.
  rewrite Window_wm.
  change (Window.__init__ a)
    with (Window.__init__in_order Window.code_order a).
  rewrite (yields_self_icon T _ _ _ _ _ (Window_yields T _ a)).
  assert (forall c,
            Tk.wm_iconphoto
              (match Window_aborts a T with
               | Some _ => c
               | None => Window_configured a (Tk.windowingsystem T) c
               end) = Tk.wm_iconphoto c) as ->
    by (intros c; by destruct (Window_aborts a T)).
  unfold icon_recorded, Tk.icon_block.
  destruct (truthy (Window.iconphoto a)); simpl.
  - split; [done|]. by destruct (Tk.iconphoto_error T true _).
  - destruct (Tk.default_icon T) as [image|e]; simpl; [|done].
    split; [done|]. by destruct (Tk.iconphoto_error T true image).
Qed.

(** X13: after a constructor that returned, the property [style]
    returns the style made from [themename], and reading it changes
    nothing. *)
Theorem style_is_the_one_the_constructor_made
    (T : Tk.toolkit) (w : Tk.world) (a : Window.args) :
  returns (Window.__init__ a) T w ->
  run (Window.__init__ a ;; Window.style) T w
  = (Return (Window.themename a), snd (run (Window.__init__ a) T w)).
Proof.
  intros Hr. unfold run. rewrite then_returns by done.
  unfold Window.style.
  change (Window.__init__ a)
    with (Window.__init__in_order Window.code_order a).
  rewrite (yields_self_style T _ _ _ _ _ (Window_yields T _ a)).
  apply Window_returns in Hr. by rewrite Hr.
Qed.

Lemma style_is_the_one_the_constructor_made_witness :
  returns (Window.__init__ Window.defaults) (toolkit0 "x11") world0
  /\ fst (run (Window.__init__ Window.defaults ;; Window.style)
              (toolkit0 "x11") world0)
     = Return "litera".
Proof.
  assert (returns (Window.__init__ Window.defaults) (toolkit0 "x11") world0)
    as Hr by (exists tt; reflexivity).
  split; [exact Hr|].
  rewrite (style_is_the_one_the_constructor_made
             (toolkit0 "x11") world0 Window.defaults Hr).
  reflexivity.
Defined.

(** ** What the callback leaves alone *)

Lemma disabled_state_cursor_frame T w ev :
  let after := snd (run (Window._disabled_state_cursor ev) T w) in
  Tk.wm after = Tk.wm w
  /\ Tk.bindings after = Tk.bindings w
  /\ Tk.self_icon after = Tk.self_icon w
  /\ Tk.self_style after = Tk.self_style w
  /\ (Tk.widgets after = Tk.widgets w
      \/ exists v,
           Tk.widgets after
           = alter (<["cursor" := v]>) (Window.widget ev) (Tk.widgets w)).
Proof.
  callback_cases; repeat split; try done; try (by left); right; by eexists.
Qed.

(** X14: whatever happens, [_disabled_state_cursor] changes nothing
    but the [cursor] option of the widget of the event: the window
    manager's record, the bindings and the attributes of the object stay,
    every other widget keeps its options, the widget keeps its other
    options, and no widget appears or disappears. *)
Theorem disabled_state_cursor_touches_only_the_cursor
    (T : Tk.toolkit) (w : Tk.world) (ev : Window.event) :
  let after := snd (run (Window._disabled_state_cursor ev) T w) in
  Tk.wm after = Tk.wm w
  /\ Tk.bindings after = Tk.bindings w
  /\ Tk.self_icon after = Tk.self_icon w
  /\ Tk.self_style after = Tk.self_style w
  /\ (forall name,
        name <> Window.widget ev ->
        Tk.widgets after !! name = Tk.widgets w !! name)
  /\ (forall key,
        key <> "cursor" ->
        Tk.widgets after !! Window.widget ev ≫= (.!! key)
        = Tk.widgets w !! Window.widget ev ≫= (.!! key))
  /\ (forall name,
        is_Some (Tk.widgets after !! name)
        <-> is_Some (Tk.widgets w !! name)).
Proof.
  intros after.
  destruct (disabled_state_cursor_frame T w ev)
    as (Hwm & Hb & Hi & Hs & Hw).
  fold after in Hwm, Hb, Hi, Hs, Hw.
  split; [done|]. split; [done|]. split; [done|]. split; [done|].
  destruct Hw as [->|[v ->]]; [done|].
  split; [intros name Hname; by rewrite lookup_alter_ne|].
  split.
  - intros key Hkey. rewrite lookup_alter_eq.
    destruct (Tk.widgets w !! Window.widget ev) as [options|]; simpl;
      [by rewrite lookup_insert_ne|done].
  - intros name. destruct (decide (name = Window.widget ev)) as [->|Hne].
    + rewrite lookup_alter_eq. by rewrite fmap_is_Some.
    + by rewrite lookup_alter_ne.
Qed.

Lemma disabled_state_cursor_run T w ev options state cursor :
  Tk.widgets w !! Window.widget ev = Some options ->
  options !! "state" = Some state ->
  options !! "cursor" = Some cursor ->
  str_in (str state) [DISABLED; READONLY] = true ->
  Tk.configure_error T (Window.widget ev) "cursor" (Some "arrow") = None ->
  let n := Window.widget ev in
  let asked :=
    Tk.log (Tk.Cget n "cursor")
      (Tk.log (Tk.Cget n "state") (Tk.log (Tk.Nametowidget n) w)) in
  run (Window._disabled_state_cursor ev) T w
  = (Return tt,
     if String.eqb (str cursor) "arrow" then asked
     else Tk.accept (Tk.SetItem n "cursor" (Some "arrow"))
            (Tk.log (Tk.SetItem n "cursor" (Some "arrow")) asked)).
Proof.
  intros Hw Hs Hc Hd Hok n asked. subst n asked.
  unfold run, Window._disabled_state_cursor,
    Tk.try_except, Window._disabled_state_cursor_try, Tk.bind.
  rewrite (nametowidget_run T w _ options Hw). cbv beta iota.
  set (w1 := Tk.log (Tk.Nametowidget (Window.widget ev)) w).
  rewrite (cget_run T w1 _ options Hw "state" state Hs). cbv beta iota zeta.
  set (w2 := Tk.log (Tk.Cget (Window.widget ev) "state") w1).
  rewrite (cget_run T w2 _ options Hw "cursor" cursor Hc). cbv beta iota zeta.
  set (w3 := Tk.log (Tk.Cget (Window.widget ev) "cursor") w2).
  rewrite Hd.
  destruct (String.eqb (str cursor) "arrow"); [done|].
  by rewrite (setitem_run T w3 _ options Hw "cursor" cursor _ Hc Hok).
Qed.

(** X15: the callback settles: once it has run for a widget that is
    disabled or read-only, with a toolkit that accepts the arrow, the
    cursor is [arrow], and a further event for the widget only reads
    the state and the cursor and sets nothing, so a [<Configure>] event
    that the change of cursor itself causes ends there. *)
Theorem disabled_state_cursor_settles
    (T : Tk.toolkit) (w : Tk.world) (ev : Window.event)
    (options : gmap string (option string)) (state cursor : option string) :
  Tk.widgets w !! Window.widget ev = Some options ->
  options !! "state" = Some state ->
  options !! "cursor" = Some cursor ->
  str_in (str state) [DISABLED; READONLY] = true ->
  Tk.configure_error T (Window.widget ev) "cursor" (Some "arrow") = None ->
  let once := snd (run (Window._disabled_state_cursor ev) T w) in
  Tk.widgets once !! Window.widget ev ≫= (.!! "cursor")
  = Some (Some "arrow")
  /\ issued (Window._disabled_state_cursor ev) T once
     = [Tk.Nametowidget (Window.widget ev);
        Tk.Cget (Window.widget ev) "state";
        Tk.Cget (Window.widget ev) "cursor"]
  /\ Tk.widgets (snd (run (Window._disabled_state_cursor ev) T once))
     = Tk.widgets once.
Proof.
  intros Hw Hs Hc Hd Hok once.
  pose proof (disabled_state_cursor_run T w ev options state cursor
                Hw Hs Hc Hd Hok) as Hrun.
  cbv zeta in Hrun.
  assert (exists options',
            Tk.widgets once !! Window.widget ev = Some options'
            /\ options' !! "state" = Some state
            /\ options' !! "cursor" = Some (Some "arrow")) as
    (options' & Hw' & Hs' & Hc').
  { subst once. rewrite Hrun. simpl.
    destruct (String.eqb (str cursor) "arrow") eqn:Ha; simpl.
    - exists options. split; [done|]. split; [done|].
      apply String.eqb_eq in Ha. destruct cursor as [c|]; [|done].
      simpl in Ha. by subst c.
    - exists (<["cursor" := Some "arrow"]> options).
      rewrite lookup_alter_eq, Hw. simpl.
      split; [done|]. split; [by rewrite lookup_insert_ne|].
      by rewrite lookup_insert_eq. }
  pose proof (disabled_state_cursor_run T once ev options' state
                (Some "arrow") Hw' Hs' Hc' Hd Hok) as Hrun'.
  cbv zeta in Hrun'. simpl in Hrun'.
  split; [by rewrite Hw'; simpl|].
  split.
  - unfold issued. unfold run in Hrun'. rewrite Hrun'. simpl.
    rewrite <- !app_assoc. by rewrite drop_app_length.
  - by rewrite Hrun'.
Qed.

Lemma disabled_state_cursor_settles_witness :
  let w := world_with_entry (Some "disabled") (Some "xterm") in
  let ev := {| Window.widget := ".!entry" |} in
  let once := snd (run (Window._disabled_state_cursor ev) (toolkit0 "x11") w) in
  issued (Window._disabled_state_cursor ev) (toolkit0 "x11") w
  = [Tk.Nametowidget ".!entry"; Tk.Cget ".!entry" "state";
     Tk.Cget ".!entry" "cursor";
     Tk.SetItem ".!entry" "cursor" (Some "arrow")]
  /\ Tk.widgets once !! ".!entry" ≫= (.!! "cursor") = Some (Some "arrow")
  /\ issued (Window._disabled_state_cursor ev) (toolkit0 "x11") once
     = [Tk.Nametowidget ".!entry"; Tk.Cget ".!entry" "state";
        Tk.Cget ".!entry" "cursor"]
  /\ Tk.widgets (snd (run (Window._disabled_state_cursor ev)
                          (toolkit0 "x11") once))
     = Tk.widgets once.
Proof.
  intros w ev once.
  split; [reflexivity|].
  exact (disabled_state_cursor_settles (toolkit0 "x11") w ev
           {[ "state" := Some "disabled"; "cursor" := Some "xterm" ]}
           (Some "disabled") (Some "xterm")
           eq_refl eq_refl eq_refl eq_refl eq_refl).
Defined.
